(** * Chromanode master: the block indexer

    A shallow embedding of [bin/chromanode-master.js]: the address
    extraction and the statements of [storeTransactions], the catch-up loop
    of [catchUp] with its run-local [mempoolTruncated] flag, and the
    [mainLoop] driver.

    JavaScript numbers that hold heights, indices and amounts are integers
    far below 2^53, so they are modelled by [Z] without rounding.  A promise
    chain is modelled by the order in which its callbacks run; what a piece
    of synchronous code does to the database client is the list of
    statements it issues, possibly cut short by an exception. *)

From Stdlib Require Import ZArith List String Ascii Bool Lia.
From Stdlib Require Import Strings.Byte.
Import ListNotations.
Local Open Scope Z_scope.

(* ================================================================== *)
(** * JavaScript array and string helpers *)

Module Js.

(** Relative index resolution of [Array.prototype.slice]: a negative
    index counts from the end, and both ends are clamped to the array. *)
Definition rel_index (len i : Z) : Z :=
  if i <? 0 then Z.max (len + i) 0 else Z.min i len.

(** [arr.slice(s, e)] *)
Definition slice {A : Type} (arr : list A) (s e : Z) : list A :=
  let len := Z.of_nat (List.length arr) in
  let k := rel_index len s in
  let final := rel_index len e in
  firstn (Z.to_nat (final - k)) (skipn (Z.to_nat k) arr).

(** [arr.join('')] on an array of strings *)
Fixpoint join (arr : list string) : string :=
  match arr with
  | [] => EmptyString
  | s :: rest => String.append s (join rest)
  end.

(** [arr.map(function (x, index) {...})]: the elements with their index *)
Fixpoint indexed_from {A : Type} (i : nat) (arr : list A) : list (A * nat) :=
  match arr with
  | [] => []
  | x :: rest => (x, i) :: indexed_from (S i) rest
  end.

Definition indexed {A : Type} (arr : list A) : list (A * nat) :=
  indexed_from 0 arr.

End Js.

(* ================================================================== *)
(** * The relational store *)

Module Sql.

Inductive Table :=
| blocks | transactions | history | transactions_mempool | history_mempool.

Inductive Column :=
| c_height | c_blockid | c_header | c_txids
| c_txid | c_tx | c_address | c_index | c_value.

(** A bound parameter, as the driver receives it from JavaScript. *)
Inductive Param :=
| PStr (s : string)
| PNum (n : Z).

(** The statements the indexer sends:
    [INSERT INTO t (cols) VALUES ($1, ..., $n)],
    [DELETE FROM t WHERE height >= $1] and [TRUNCATE t1, ..., tk]. *)
Inductive Statement :=
| Insert (t : Table) (cols : list Column)
| DeleteHeightGe (t : Table)
| Truncate (ts : list Table).

Record Query := mkQuery { text : Statement; values : list Param }.

(** A row binds the columns it was given; a column it does not bind is
    NULL. *)
Definition Row : Type := list (Column * Param).

Record DB := mkDB {
  r_blocks : list Row;
  r_transactions : list Row;
  r_history : list Row;
  r_transactions_mempool : list Row;
  r_history_mempool : list Row
}.

Definition empty : DB := mkDB [] [] [] [] [].

Definition rows (db : DB) (t : Table) : list Row :=
  match t with
  | blocks => r_blocks db
  | transactions => r_transactions db
  | history => r_history db
  | transactions_mempool => r_transactions_mempool db
  | history_mempool => r_history_mempool db
  end.

Definition set_rows (db : DB) (t : Table) (rs : list Row) : DB :=
  match t with
  | blocks => mkDB rs (r_transactions db) (r_history db)
                   (r_transactions_mempool db) (r_history_mempool db)
  | transactions => mkDB (r_blocks db) rs (r_history db)
                   (r_transactions_mempool db) (r_history_mempool db)
  | history => mkDB (r_blocks db) (r_transactions db) rs
                   (r_transactions_mempool db) (r_history_mempool db)
  | transactions_mempool => mkDB (r_blocks db) (r_transactions db) (r_history db)
                   rs (r_history_mempool db)
  | history_mempool => mkDB (r_blocks db) (r_transactions db) (r_history db)
                   (r_transactions_mempool db) rs
  end.

Definition Column_eqb (a b : Column) : bool :=
  match a, b with
  | c_height, c_height | c_blockid, c_blockid | c_header, c_header
  | c_txids, c_txids | c_txid, c_txid | c_tx, c_tx
  | c_address, c_address | c_index, c_index | c_value, c_value => true
  | _, _ => false
  end.

Definition Table_eqb (a b : Table) : bool :=
  match a, b with
  | blocks, blocks | transactions, transactions | history, history
  | transactions_mempool, transactions_mempool
  | history_mempool, history_mempool => true
  | _, _ => false
  end.

Fixpoint lookup (c : Column) (r : Row) : option Param :=
  match r with
  | [] => None
  | (c', v) :: rest => if Column_eqb c c' then Some v else lookup c rest
  end.

(** The height of a row; [None] is NULL. *)
Definition row_height (r : Row) : option Z :=
  match lookup c_height r with
  | Some (PNum h) => Some h
  | _ => None
  end.

(** Modelled from the spec: the schema files of the repository are not
    part of the sources at hand; section 6 of the specification lists the
    tables, with [height] the primary key of [blocks] and nullable in
    [transactions] and [history]. *)
Definition schema (t : Table) : list Column :=
  match t with
  | blocks => [c_height; c_blockid; c_header; c_txids]
  | transactions => [c_txid; c_tx; c_height]
  | transactions_mempool => [c_txid; c_tx]
  | history => [c_address; c_txid; c_index; c_value; c_height]
  | history_mempool => [c_address; c_txid; c_index; c_value]
  end.

Definition in_schema (t : Table) (c : Column) : bool :=
  existsb (Column_eqb c) (schema t).

(** [blocks.height] is a primary key: a second row of the same height is
    refused. *)
Definition violates_key (t : Table) (r : Row) (db : DB) : bool :=
  match t with
  | blocks =>
      match row_height r with
      | Some h =>
          existsb (fun r' => match row_height r' with
                             | Some h' => h' =? h
                             | None => false
                             end) (rows db blocks)
      | None => true
      end
  | _ => false
  end.

(** [WHERE height >= h]: a NULL height compares to NULL, which is not
    true, so the row stays. *)
Definition keeps (h : Z) (r : Row) : bool :=
  match row_height r with
  | Some x => x <? h
  | None => true
  end.

Definition clear (db : DB) (t : Table) : DB := set_rows db t [].

(** One statement against the store; [None] is an error reported by the
    server.  A bind whose number of parameters differs from the number
    of placeholders is an error. *)
Definition exec (q : Query) (db : DB) : option DB :=
  match text q with
  | Insert t cols =>
      if negb (Nat.eqb (List.length cols) (List.length (values q))) then None
      else if negb (forallb (in_schema t) cols) then None
      else
        let r := combine cols (values q) in
        if violates_key t r db then None
        else Some (set_rows db t (rows db t ++ [r]))
  | DeleteHeightGe t =>
      match values q with
      | [PNum h] => Some (set_rows db t (filter (keeps h) (rows db t)))
      | _ => None
      end
  | Truncate ts =>
      match values q with
      | [] => Some (fold_left clear ts db)
      | _ => None
      end
  end.

(** The statements of one connection run in the order they were sent;
    the first one that fails is returned. *)
Fixpoint exec_all (qs : list Query) (db : DB) : Query + DB :=
  match qs with
  | [] => inr db
  | q :: rest =>
      match exec q db with
      | Some db' => exec_all rest db'
      | None => inl q
      end
  end.

End Sql.

Import Sql.

(* ================================================================== *)
(** * Errors and client calls *)

Inductive Error :=
| TypeError                 (* a property read on [undefined] *)
| InvalidArgument           (* bitcore refused the argument of a call *)
| BitcoindError             (* an RPC call failed or the block did not parse *)
| QueryError (q : Query).   (* the store refused a statement *)

(** What a synchronous piece of code does to the database client: the
    statements it has sent, in order, and the exception that interrupted
    it, if any. *)
Record Calls := mkCalls { sent : list Query; thrown : option Error }.

Definition no_calls : Calls := mkCalls [] None.

Definition throw (e : Error) : Calls := mkCalls [] (Some e).

(** Sequencing of synchronous code: an exception skips what follows. *)
Definition then_calls (a b : Calls) : Calls :=
  match thrown a with
  | Some _ => a
  | None => mkCalls (sent a ++ sent b) (thrown b)
  end.

Fixpoint all_calls (cs : list Calls) : Calls :=
  match cs with
  | [] => no_calls
  | c :: rest => then_calls c (all_calls rest)
  end.

(** A [pg.Client] is a handle; a missing argument is [undefined]. *)
Inductive Client := PgClient.

(** [client.queryAsync(text, values)]; on [undefined] the property read
    throws. *)
Definition queryAsync (client : option Client) (text : Statement)
    (values : list Param) : Calls :=
  match client with
  | Some _ => mkCalls [mkQuery text values] None
  | None => throw TypeError
  end.

(* ================================================================== *)
(** * The bitcore values the indexer handles *)

Module Bitcore.

Definition Buffer : Type := list byte.

(** A script chunk: an opcode, and the pushed data when the opcode is a
    push ([buf] is [undefined] otherwise). *)
Record Chunk := mkChunk { buf : option Buffer; opcodenum : Z }.

Record Script := mkScript { chunks : list Chunk }.

Record Output := mkOutput { script : Script; satoshis : Z }.

(** [tx_id] is [tx.id], [tx_hex] is [tx.toString()]. *)
Record Transaction := mkTransaction {
  tx_id : string;
  tx_hex : string;
  tx_outputs : list Output
}.

(** [block_id] is [block.id], [block_header] is [block.header.toString()]. *)
Record Block := mkBlock {
  block_id : string;
  block_header : string;
  block_transactions : list Transaction
}.

Inductive Network := livenet | testnet.

Inductive AddressType := PayToPublicKeyHash | PayToScriptHash.

(** [new Address(data, network, type)].  The indexer gives it a hash it
    has just computed, or the data of the chunk that the classifier has
    checked to be the 20-byte hash of its template. *)
Record Address := mkAddress {
  hashBuffer : option Buffer;
  addr_network : Network;
  addr_type : AddressType
}.

(** The operations of the bitcore library that the indexer calls.  The
    library is not part of this repository: the script classifiers, the
    hash of a buffer and the rendering of an address are parameters of the
    model. *)
Class Lib := {
  isPublicKeyHashOut : Script -> bool;
  isScriptHashOut : Script -> bool;
  isMultisigOut : Script -> bool;
  isPublicKeyOut : Script -> bool;
  sha256ripemd160 : Buffer -> Buffer;
  addressToString : Address -> string
}.

(** [Hash.sha256ripemd160(x)]: the library checks that its argument is a
    buffer and throws when it is not, as for [undefined]. *)
Definition Hash_sha256ripemd160 {L : Lib} (x : option Buffer) : Error + Buffer :=
  match x with
  | Some b => inr (sha256ripemd160 b)
  | None => inl InvalidArgument
  end.

End Bitcore.

Import Bitcore.

(* ================================================================== *)
(** * storeTransactions *)

Record Queries := mkQueries { storeTx : Statement; storeOut : Statement }.

Definition queries_blockchain : Queries :=
  {| storeTx := Insert transactions [c_txid; c_tx; c_height];
     storeOut := Insert history [c_address; c_txid; c_index; c_value; c_height] |}.

Definition queries_mempool : Queries :=
  {| storeTx := Insert transactions_mempool [c_txid; c_tx];
     storeOut := Insert history [c_address; c_txid; c_index; c_value] |}.

(** [script.chunks[i].buf]: reading [buf] of a chunk that is not there
    throws. *)
Definition chunk_buf (s : Script) (i : nat) : Error + option Buffer :=
  match nth_error (chunks s) i with
  | Some c => inr (buf c)
  | None => inl TypeError
  end.

(** [arr.map(f)] with a callback that may throw *)
Fixpoint map_throwing {A B : Type} (f : A -> Error + B) (arr : list A)
  : Error + list B :=
  match arr with
  | [] => inr []
  | x :: rest =>
      match f x with
      | inl e => inl e
      | inr y =>
          match map_throwing f rest with
          | inl e => inl e
          | inr ys => inr (y :: ys)
          end
      end
  end.

(** The prefix of a bytea literal, ['\\x'] in the JavaScript source *)
Definition bytea (hex : string) : string :=
  String "\" (String "x" hex).

Section Indexer.

Context {L : Lib}.

(** [this.network] *)
Variable network : Network.

(** The [addresses] of one output script, as the callback of
    [tx.outputs.map] in [saveOutputs] computes them: [inl] when it throws,
    [inr None] when it returns early for a script of no known kind. *)
Definition addresses (script : Script) : Error + option (list Address) :=
  if isPublicKeyHashOut script then
    match chunk_buf script 2 with
    | inl e => inl e
    | inr b => inr (Some [mkAddress b network PayToPublicKeyHash])
    end
  else if isScriptHashOut script then
    match chunk_buf script 1 with
    | inl e => inl e
    | inr b => inr (Some [mkAddress b network PayToScriptHash])
    end
  else if isMultisigOut script then
    match
      map_throwing
        (fun pubKey : Chunk =>
           match chunk_buf script 0 with
           | inl e => inl e
           | inr b =>
               match Hash_sha256ripemd160 b with
               | inl e => inl e
               | inr hash =>
                   inr (mkAddress (Some hash) network PayToPublicKeyHash)
               end
           end)
        (Js.slice (chunks script) 1 (-2))
    with
    | inl e => inl e
    | inr addrs => inr (Some addrs)
    end
  else if isPublicKeyOut script then
    match chunk_buf script 0 with
    | inl e => inl e
    | inr b =>
        match Hash_sha256ripemd160 b with
        | inl e => inl e
        | inr hash => inr (Some [mkAddress (Some hash) network PayToPublicKeyHash])
        end
    end
  else inr None.

Section StoreTransactions.

Variable client : option Client.
Variable height : option Z.

Definition isMempool : bool :=
  match height with None => true | Some _ => false end.

Definition queries : Queries :=
  if isMempool then queries_mempool else queries_blockchain.

(** [if (!isMempool) { params.push(height) }] *)
Definition push_height (params : list Param) : list Param :=
  match height with
  | None => params
  | Some h => params ++ [PNum h]
  end.

Definition saveTx (tx : Transaction) : Calls :=
  let params := [PStr (bytea (tx_id tx)); PStr (bytea (tx_hex tx))] in
  queryAsync client (storeTx queries) (push_height params).

Definition saveInputs (tx : Transaction) : Calls := no_calls.

(** [addresses.map(function (address) {...})]: [params] is a variable of
    the enclosing callback and every iteration assigns to it. *)
Fixpoint storeOuts (addrs : list Address) (params : list Param) : Calls :=
  match addrs with
  | [] => no_calls
  | address :: rest =>
      let params' := PStr (addressToString address) :: params in
      then_calls (queryAsync client (storeOut queries) params')
                 (storeOuts rest params')
  end.

Definition saveOutput (txid : string) (oi : Output * nat) : Calls :=
  let (output, index) := oi in
  match addresses (script output) with
  | inl e => throw e
  | inr None => no_calls
  | inr (Some addrs) =>
      let params :=
        push_height [PStr txid; PNum (Z.of_nat index); PNum (satoshis output)] in
      storeOuts addrs params
  end.

Definition saveOutputs (tx : Transaction) : Calls :=
  let txid := tx_id tx in
  all_calls (map (saveOutput txid) (Js.indexed (tx_outputs tx))).

(** [Promise.all(_.flatten(transactions.map(...)))]: the callbacks of
    [map] run in order and send their statements as they run; the promise
    is taken to wait for every statement sent. *)
Definition storeTransactions (txs : list Transaction) : Calls :=
  all_calls
    (map (fun tx => all_calls [saveTx tx; saveInputs tx; saveOutputs tx]) txs).

End StoreTransactions.

(* ------------------------------------------------------------------ *)
(** ** Transactions *)

(** A connection inside a transaction: the working copy of the store and
    the statements received so far. *)
Record Conn := mkConn { work : DB; issued : list Query }.

(** Code that runs inside the callback of [executeTransaction]: it reads
    and writes the closure variable [mempoolTruncated] of [catchUp] and
    talks to the connection. *)
Definition Body (A : Type) : Type :=
  bool -> Conn -> (Error + A) * bool * Conn.

Definition ret {A : Type} (a : A) : Body A :=
  fun flag conn => (inr a, flag, conn).

Definition bind {A B : Type} (m : Body A) (k : A -> Body B) : Body B :=
  fun flag conn =>
    match m flag conn with
    | (inl e, flag', conn') => (inl e, flag', conn')
    | (inr a, flag', conn') => k a flag' conn'
    end.

(** Waiting for the promises of the calls just made: the statements run
    in order; an exception thrown while they were being sent, or else the
    first statement refused, rejects. *)
Definition await (c : Calls) : Conn -> (Error + unit) * Conn :=
  fun conn =>
    let log := issued conn ++ sent c in
    match exec_all (sent c) (work conn), thrown c with
    | _, Some e => (inl e, mkConn (work conn) log)
    | inl q, None => (inl (QueryError q), mkConn (work conn) log)
    | inr db', None => (inr tt, mkConn db' log)
    end.

(** One [then] callback: synchronous code that may assign the closure
    variable and sends statements, whose promises are then awaited. *)
Definition call (f : bool -> bool * Calls) : Body unit :=
  fun flag conn =>
    let (flag', c) := f flag in
    let (r, conn') := await c conn in
    (r, flag', conn').

(** Modelled from the spec: [lib/storage] is not among the sources at
    hand.  Section 4.6 of the specification: [executeTransaction] hands a
    connection to the callback, commits on normal completion and rolls
    back on any error. *)
Definition executeTransaction {A : Type} (fn : option Client -> Body A)
    (flag : bool) (db : DB) : (Error + A) * bool * DB * list Query :=
  match fn (Some PgClient) flag (mkConn db []) with
  | (inr a, flag', conn) => (inr a, flag', work conn, issued conn)
  | (inl e, flag', conn) => (inl e, flag', db, issued conn)
  end.

(* ------------------------------------------------------------------ *)
(** ** Chain tips *)

Record ChainTip := mkTip { height : Z; blockid : string }.

Definition unbytea (s : string) : string :=
  match s with
  | String "\" (String "x" hex) => hex
  | _ => s
  end.

Definition row_tip (r : Row) : option ChainTip :=
  match row_height r, lookup c_blockid r with
  | Some h, Some (PStr s) => Some (mkTip h (unbytea s))
  | _, _ => None
  end.

Definition higher (best : option ChainTip) (r : Row) : option ChainTip :=
  match row_tip r, best with
  | Some t, Some b => if height b <? height t then Some t else Some b
  | Some t, None => Some t
  | None, _ => best
  end.

(** The tip an empty store reports *)
Variable genesis : ChainTip.

(** Modelled from the spec: [lib/storage] is not among the sources at
    hand.  Section 4.6 of the specification: [getBestBlock] returns the
    highest committed tip, or a defined genesis value when the store holds
    no block. *)
Definition getBestBlock (db : DB) : ChainTip :=
  match fold_left higher (rows db blocks) None with
  | Some t => t
  | None => genesis
  end.

(* ------------------------------------------------------------------ *)
(** ** The node *)

(** What bitcoind answers, as a function of the number of requests it has
    served before: the best block ([getBlockCount] then [getBlockHash]),
    and the parsed block of a height ([getBlockHash], [getBlock], then
    [new bitcore.Block]); [None] is a failed call or a block that does not
    parse. *)
Record Bitcoind := mkBitcoind {
  bestBlockAt : nat -> option ChainTip;
  blockAt : nat -> Z -> option Block
}.

Variable node : Bitcoind.

Record Indexer := mkIndexer {
  bestBlock : ChainTip;
  bitcoindBestBlock : ChainTip;
  storage : DB;
  served : nat
}.

Definition set_bestBlock (self : Indexer) (t : ChainTip) : Indexer :=
  mkIndexer t (bitcoindBestBlock self) (storage self) (served self).

Definition set_bitcoindBestBlock (self : Indexer) (t : ChainTip) : Indexer :=
  mkIndexer (bestBlock self) t (storage self) (served self).

Definition set_storage (self : Indexer) (db : DB) : Indexer :=
  mkIndexer (bestBlock self) (bitcoindBestBlock self) db (served self).

Definition tick (self : Indexer) : Indexer :=
  mkIndexer (bestBlock self) (bitcoindBestBlock self) (storage self)
            (S (served self)).

Definition getBitcoindBestBlock (self : Indexer) : (Error + ChainTip) * Indexer :=
  match bestBlockAt node (served self) with
  | Some t => (inr t, tick self)
  | None => (inl BitcoindError, tick self)
  end.

Definition getBlock (self : Indexer) (h : Z) : (Error + Block) * Indexer :=
  match blockAt node (served self) h with
  | Some b => (inr b, tick self)
  | None => (inl BitcoindError, tick self)
  end.

(* ------------------------------------------------------------------ *)
(** ** catchUp *)

(** How one pass of [once] in [catchUp] ends: a block was imported, a
    [ReorgFound] was caught (both schedule the next pass), [SyncComplete]
    resolved the run, or another error rejected it. *)
Inductive Outcome :=
| Advanced
| Reorged
| Completed
| Failed (e : Error).

Inductive TxKind :=
| Rollback (h : Z)
| Import (h : Z).

(** What an observer of the process sees. *)
Inductive Event :=
| EvBestBlockRequest
| EvBlockRequest (h : Z)
| EvReorgWarning (h : Z)
| EvTransaction (k : TxKind) (qs : list Query) (committed : bool)
| EvImported (h : Z) (id : string)
| EvSetTimeout
| EvErrorLogged (e : Error).

(** The state of one run of [catchUp]: the indexer object and the local
    variable [mempoolTruncated]. *)
Record Run := mkRun { self : Indexer; mempoolTruncated : bool }.

Definition truncateQuery : Statement :=
  Truncate [transactions_mempool; history_mempool].

Definition tryTruncateMempool (client : option Client)
    (mempoolTruncated : bool) : bool * Calls :=
  if mempoolTruncated then (true, no_calls)
  else (true, queryAsync client truncateQuery []).

(** The callback of the reorg branch.  The elements of the array given
    to [Promise.all] are evaluated in order; [tryTruncateMempool] is
    called without an argument. *)
Definition rollbackTo (h : Z) (client : option Client) : Body unit :=
  call (fun flag =>
    let deletes :=
      all_calls [queryAsync client (DeleteHeightGe blocks) [PNum h];
                 queryAsync client (DeleteHeightGe transactions) [PNum h];
                 queryAsync client (DeleteHeightGe history) [PNum h]] in
    match thrown deletes with
    | Some _ => (flag, deletes)
    | None =>
        let (flag', t) := tryTruncateMempool None flag in
        (flag', then_calls deletes t)
    end).

Definition blockQuery : Statement :=
  Insert blocks [c_height; c_blockid; c_header; c_txids].

Definition blockValues (h : Z) (block : Block) : list Param :=
  [PNum h;
   PStr (bytea (block_id block));
   PStr (bytea (block_header block));
   PStr (bytea (Js.join (map tx_id (block_transactions block))))].

(** The callback of the import branch. *)
Definition importBlock (h : Z) (block : Block) (client : option Client)
  : Body unit :=
  bind (call (tryTruncateMempool client)) (fun _ =>
  bind (call (fun flag => (flag, queryAsync client blockQuery (blockValues h block))))
       (fun _ =>
  call (fun flag =>
    (flag, storeTransactions client (Some h) (block_transactions block))))).

(** "check sync status first", then "refresh bestBlock for bitcoind":
    [Some o] when the pass ends here. *)
Definition checkSync (self : Indexer) : option Outcome * Indexer * list Event :=
  if height (bestBlock self) + 100 <? height (bitcoindBestBlock self) then
    (None, self, [])
  else
    match getBitcoindBestBlock self with
    | (inl e, self1) => (Some (Failed e), self1, [EvBestBlockRequest])
    | (inr bBestBlock, self1) =>
        let self2 := set_bitcoindBestBlock self1 bBestBlock in
        if String.eqb (blockid (bestBlock self2)) (blockid (bitcoindBestBlock self2))
        then (Some Completed, self2, [EvBestBlockRequest])
        else (None, self2, [EvBestBlockRequest])
    end.

(** "reorg check": the branch taken when the local tip is not below the
    remote one. *)
Definition reorg (r : Run) : Outcome * Run * list Event :=
  let h := height (bitcoindBestBlock (self r)) in
  match executeTransaction (rollbackTo h) (mempoolTruncated r) (storage (self r)) with
  | (inr _, flag, db, qs) =>
      let self1 := set_storage (self r) db in
      let sBestBlock := getBestBlock db in
      (Reorged, mkRun (set_bestBlock self1 sBestBlock) flag,
       [EvReorgWarning h; EvTransaction (Rollback h) qs true])
  | (inl e, flag, db, qs) =>
      (Failed e, mkRun (set_storage (self r) db) flag,
       [EvReorgWarning h; EvTransaction (Rollback h) qs false])
  end.

(** "get block from bitcoind" and its import. *)
Definition forward (r : Run) : Outcome * Run * list Event :=
  let h := height (bestBlock (self r)) + 1 in
  match getBlock (self r) h with
  | (inl e, self1) =>
      (Failed e, mkRun self1 (mempoolTruncated r), [EvBlockRequest h])
  | (inr block, self1) =>
      match executeTransaction (importBlock h block) (mempoolTruncated r)
                               (storage self1) with
      | (inr _, flag, db, qs) =>
          let self2 := set_storage self1 db in
          (Advanced,
           mkRun (set_bestBlock self2 (mkTip h (block_id block))) flag,
           [EvBlockRequest h; EvTransaction (Import h) qs true;
            EvImported h (block_id block)])
      | (inl e, flag, db, qs) =>
          (Failed e, mkRun (set_storage self1 db) flag,
           [EvBlockRequest h; EvTransaction (Import h) qs false])
      end
  end.

Definition once (r : Run) : Outcome * Run * list Event :=
  match checkSync (self r) with
  | (Some o, self1, ev) => (o, mkRun self1 (mempoolTruncated r), ev)
  | (None, self1, ev) =>
      let r1 := mkRun self1 (mempoolTruncated r) in
      let '(o, r2, ev') :=
        if height (bestBlock self1) >=? height (bitcoindBestBlock self1)
        then reorg r1 else forward r1 in
      (o, r2, ev ++ ev')
  end.

(** How a run of [catchUp] stands after a number of passes: its promise
    is resolved, rejected, or the next pass is still to come. *)
Inductive Settled :=
| Resolved
| Rejected (e : Error)
| Pending.

(** [timers.setImmediate(once)] after a pass that imported or rolled
    back; [passes] bounds the number of passes observed. *)
Fixpoint catchUp_from (passes : nat) (r : Run) : Settled * Run * list Event :=
  match passes with
  | O => (Pending, r, [])
  | S n =>
      let '(o, r1, ev) := once r in
      match o with
      | Advanced | Reorged =>
          let '(s, r2, ev') := catchUp_from n r1 in (s, r2, ev ++ ev')
      | Completed => (Resolved, r1, ev)
      | Failed e => (Rejected e, r1, ev)
      end
  end.

Definition catchUp (passes : nat) (self : Indexer) : Settled * Run * list Event :=
  catchUp_from passes (mkRun self false).

(* ------------------------------------------------------------------ *)
(** ** mainLoop *)

Definition updateMempool (self : Indexer) : Indexer := self.

(** The process as the event loop sees it: the indexer, the number of
    timers armed with [once], and what has been observed so far. *)
Record Process := mkProcess {
  indexer : Indexer;
  timers : nat;
  observed : list Event
}.

(** One call of [once] in [mainLoop]; [None] when the run of [catchUp]
    it started has not settled within [passes] passes.  The [finally]
    handler arms the timer whether the chain before it was fulfilled or
    rejected; a rejection then stays unhandled and is logged. *)
Definition mainLoop_once (passes : nat) (ix : Indexer)
  : option (Indexer * list Event) :=
  match getBitcoindBestBlock ix with
  | (inl e, self1) =>
      Some (self1, [EvBestBlockRequest; EvSetTimeout; EvErrorLogged e])
  | (inr bBestBlock, self1) =>
      let self2 := set_bitcoindBestBlock self1 bBestBlock in
      if negb (String.eqb (blockid (bestBlock self2))
                          (blockid (bitcoindBestBlock self2)))
      then
        match catchUp passes self2 with
        | (Resolved, r, ev) =>
            Some (self r, EvBestBlockRequest :: ev ++ [EvSetTimeout])
        | (Rejected e, r, ev) =>
            Some (self r,
                  EvBestBlockRequest :: ev ++ [EvSetTimeout; EvErrorLogged e])
        | (Pending, _, _) => None
        end
      else Some (updateMempool self2, [EvBestBlockRequest; EvSetTimeout])
  end.

Definition armed (ev : list Event) : nat :=
  List.length (filter (fun e => match e with EvSetTimeout => true | _ => false end) ev).

(** Running [once]: the timers it arms are added to the process. *)
Definition run_once (passes : nat) (p : Process) : option Process :=
  match mainLoop_once passes (indexer p) with
  | Some (self1, ev) =>
      Some (mkProcess self1 (timers p + armed ev) (observed p ++ ev))
  | None => None
  end.

(** The event loop: while a timer is armed it fires and runs [once];
    with no timer armed nothing more happens. *)
Fixpoint eventLoop (ticks passes : nat) (p : Process) : option Process :=
  match ticks with
  | O => Some p
  | S n =>
      match timers p with
      | O => Some p
      | S k =>
          match run_once passes (mkProcess (indexer p) k (observed p)) with
          | Some p1 => eventLoop n passes p1
          | None => None
          end
      end
  end.

(** [mainLoop]: [once()] is called directly, then the timers take over;
    [ticks] bounds the number of timers observed firing. *)
Definition mainLoop (ticks passes : nat) (self : Indexer) : option Process :=
  match run_once passes (mkProcess self 0 []) with
  | Some p => eventLoop ticks passes p
  | None => None
  end.

End Indexer.

Arguments addresses {L} network script.
Arguments storeTransactions {L} network client height txs.
Arguments saveOutputs {L} network client height tx.
Arguments saveOutput {L} network client height txid oi.
Arguments storeOuts {L} client height addrs params.

(* ================================================================== *)
(** * A library instance to run the model on concrete scripts *)

Module Reference.

Definition OP_0 : Z := 0.
Definition OP_1 : Z := 81.
Definition OP_2 : Z := 82.
Definition OP_16 : Z := 96.
Definition OP_DUP : Z := 118.
Definition OP_EQUAL : Z := 135.
Definition OP_EQUALVERIFY : Z := 136.
Definition OP_HASH160 : Z := 169.
Definition OP_CHECKSIG : Z := 172.
Definition OP_CHECKMULTISIG : Z := 174.

Definition isSmallIntOp (n : Z) : bool :=
  (n =? OP_0) || ((OP_1 <=? n) && (n <=? OP_16)).

Definition has_buf (len : option nat) (c : Chunk) : bool :=
  match buf c, len with
  | Some b, Some n => Nat.eqb (List.length b) n
  | Some b, None => negb (Nat.eqb (List.length b) 0)
  | None, _ => false
  end.

Definition is_op (op : Z) (c : Chunk) : bool := opcodenum c =? op.

(** The standard output templates:
    [OP_DUP OP_HASH160 <20 bytes> OP_EQUALVERIFY OP_CHECKSIG],
    [OP_HASH160 <20 bytes> OP_EQUAL],
    [<m> <key> ... <key> <n> OP_CHECKMULTISIG] and
    [<key> OP_CHECKSIG]. *)
Definition publicKeyHashOut (s : Script) : bool :=
  match chunks s with
  | [c0; c1; c2; c3; c4] =>
      is_op OP_DUP c0 && is_op OP_HASH160 c1 && has_buf (Some 20%nat) c2
      && is_op OP_EQUALVERIFY c3 && is_op OP_CHECKSIG c4
  | _ => false
  end.

Definition scriptHashOut (s : Script) : bool :=
  match chunks s with
  | [c0; c1; c2] =>
      is_op OP_HASH160 c0 && has_buf (Some 20%nat) c1 && is_op OP_EQUAL c2
  | _ => false
  end.

Definition multisigOut (s : Script) : bool :=
  let cs := chunks s in
  let n := List.length cs in
  (3 <? n)%nat
  && match cs with c0 :: _ => isSmallIntOp (opcodenum c0) | [] => false end
  && forallb (has_buf None) (Js.slice cs 1 (-2))
  && match Js.slice cs (-2) (Z.of_nat n) with
     | [cn; cop] => isSmallIntOp (opcodenum cn) && is_op OP_CHECKMULTISIG cop
     | _ => false
     end.

Definition publicKeyOut (s : Script) : bool :=
  match chunks s with
  | [c0; c1] => has_buf None c0 && is_op OP_CHECKSIG c1
  | _ => false
  end.

(** The two functions below stand in for the library's: the hash is not
    computed (the buffer is passed on as it is) and an address is rendered
    as a tag followed by its bytes.  The theorems of this file hold for
    every instance; this one only serves to run examples. *)
Definition hash_stand_in (b : Buffer) : Buffer := b.

Definition render (a : Address) : string :=
  String.append
    (match addr_type a with
     | PayToPublicKeyHash => "pkh:"%string
     | PayToScriptHash => "sh:"%string
     end)
    (match hashBuffer a with
     | Some b => string_of_list_byte b
     | None => "undefined"%string
     end).

#[export] Instance lib : Lib := {|
  isPublicKeyHashOut := publicKeyHashOut;
  isScriptHashOut := scriptHashOut;
  isMultisigOut := multisigOut;
  isPublicKeyOut := publicKeyOut;
  sha256ripemd160 := hash_stand_in;
  addressToString := render
|}.

Definition op (n : Z) : Chunk := mkChunk None n.
Definition push (b : Buffer) : Chunk := mkChunk (Some b) (Z.of_nat (List.length b)).

Definition hash20 : Buffer := repeat Byte.x48 20.
Definition key1 : Buffer := Byte.x02 :: repeat Byte.x61 32.
Definition key2 : Buffer := Byte.x03 :: repeat Byte.x62 32.

Definition p2pkh : Script :=
  mkScript [op OP_DUP; op OP_HASH160; push hash20; op OP_EQUALVERIFY; op OP_CHECKSIG].

Definition multisig_1_of_2 : Script :=
  mkScript [op OP_1; push key1; push key2; op OP_2; op OP_CHECKMULTISIG].


(** [OP_RETURN <data>] *)
Definition data_carrier : Script := mkScript [op 106; push hash20].

End Reference.

(* ================================================================== *)
(** * Vocabulary of the statements, and concrete runs *)


(** The three deletes the callback sends before it calls
    [tryTruncateMempool]. *)
Definition deleteQueries (h : Z) : list Query :=
  [mkQuery (DeleteHeightGe blocks) [PNum h];
   mkQuery (DeleteHeightGe transactions) [PNum h];
   mkQuery (DeleteHeightGe history) [PNum h]].

(** The store without the confirmed rows of height [h] and above. *)
Definition cut (h : Z) (db : DB) : DB :=
  mkDB (filter (keeps h) (r_blocks db))
       (filter (keeps h) (r_transactions db))
       (filter (keeps h) (r_history db))
       (r_transactions_mempool db)
       (r_history_mempool db).

Definition store_after {A : Type} (x : (Error + A) * bool * DB * list Query) : DB :=
  let '(_, _, db, _) := x in db.

Definition sends_truncate (qs : list Query) : Prop :=
  exists q, In q qs /\ text q = truncateQuery.

(** The rows a committed import is expected to add. *)
Definition block_row (h : Z) (block : Block) : Row :=
  combine [c_height; c_blockid; c_header; c_txids] (blockValues h block).

Definition tx_row (h : Z) (tx : Transaction) : Row :=
  [(c_txid, PStr (bytea (tx_id tx)));
   (c_tx, PStr (bytea (tx_hex tx)));
   (c_height, PNum h)].

Definition ownership_row {L : Lib} (h : Z) (txid : string) (output : Output)
    (index : nat) (a : Address) : Row :=
  [(c_address, PStr (addressToString a));
   (c_txid, PStr txid);
   (c_index, PNum (Z.of_nat index));
   (c_value, PNum (satoshis output));
   (c_height, PNum h)].

Definition output_rows {L : Lib} (network : Network) (h : Z) (txid : string)
    (oi : Output * nat) : list Row :=
  match addresses network (script (fst oi)) with
  | inr (Some addrs) => map (ownership_row h txid (fst oi) (snd oi)) addrs
  | _ => []
  end.

Definition ownership_rows {L : Lib} (network : Network) (h : Z)
    (tx : Transaction) : list Row :=
  flat_map (output_rows network h (tx_id tx)) (Js.indexed (tx_outputs tx)).

(** The store with rows appended to [transactions] and [history]. *)
Definition add_rows (db : DB) (txs hs : list Row) : DB :=
  mkDB (r_blocks db) (r_transactions db ++ txs) (r_history db ++ hs)
       (r_transactions_mempool db) (r_history_mempool db).

(** The statements an import sends ahead of those of
    [storeTransactions]. *)
Definition truncation (flag : bool) : list Query :=
  if flag then [] else [mkQuery truncateQuery []].

Definition blockInsert (h : Z) (block : Block) : Query :=
  mkQuery blockQuery (blockValues h block).

Definition without_mempool (db : DB) : DB :=
  mkDB (r_blocks db) (r_transactions db) (r_history db) [] [].

Definition tx_queries (e : Event) : list Query :=
  match e with
  | EvTransaction _ qs _ => qs
  | _ => []
  end.

Definition is_truncate (q : Query) : bool :=
  match text q with
  | Truncate _ => true
  | _ => false
  end.

(** The number of [TRUNCATE] statements sent in the transactions of a
    trace, committed or not. *)
Definition truncations (ev : list Event) : nat :=
  List.length (filter is_truncate (flat_map tx_queries ev)).

Definition is_transaction (e : Event) : bool :=
  match e with
  | EvTransaction _ _ _ => true
  | _ => false
  end.

Definition committed_import (e : Event) : bool :=
  match e with
  | EvTransaction (Import _) _ true => true
  | _ => false
  end.

Definition first_transaction (ev : list Event) : option Event :=
  find is_transaction ev.

Definition events {A B : Type} (x : A * B * list Event) : list Event := snd x.

Definition is_request (e : Event) : bool :=
  match e with
  | EvBestBlockRequest => true
  | _ => false
  end.

(** The number of times the remote tip was asked for. *)
Definition requests (ev : list Event) : nat :=
  List.length (filter is_request ev).

Definition is_rollback (e : Event) : bool :=
  match e with
  | EvTransaction (Rollback _) _ _ => true
  | _ => false
  end.

Module Scenario.

Import Reference.
Local Open Scope string_scope.

Definition genesis : ChainTip := mkTip (-1) "00".

(** A transaction with one pay-to-public-key-hash output of 5000 and one
    data-carrying output. *)
Definition tx_of (id : string) : Transaction :=
  mkTransaction ("tx" ++ id) ("raw" ++ id)
                [mkOutput p2pkh 5000; mkOutput data_carrier 0].

Definition block_of (id : string) : Block :=
  mkBlock id ("hdr" ++ id) [tx_of id].

(** A store that holds one block, at height [h], and one row in each
    mempool table. *)
Definition store_at (h : Z) (id : string) : DB :=
  mkDB [block_row h (block_of id)] [tx_row h (tx_of id)] []
       [[(c_txid, PStr "\xm1"); (c_tx, PStr "\xrawm1")]]
       [[(c_address, PStr "a"); (c_txid, PStr "m1"); (c_index, PNum 0);
         (c_value, PNum 7)]].

(** The node first reports the tip (2, bb); from its third answer on it
    has switched to a branch whose block 2 is cc. *)
Definition fork_node : Bitcoind :=
  mkBitcoind
    (fun n => Some (mkTip 2 (if (n <? 2)%nat then "bb" else "cc")))
    (fun n h => if (h =? 2)%Z
                then Some (block_of (if (n <? 2)%nat then "bb" else "cc"))
                else None).

Definition behind_by_one : Indexer :=
  mkIndexer (mkTip 1 "aa") (mkTip 2 "bb") (store_at 1 "aa") 0.

(** The node answers its first request and fails afterwards. *)
Definition failing_node : Bitcoind :=
  mkBitcoind
    (fun n => match n with O => Some (mkTip 2 "bb") | S _ => None end)
    (fun _ _ => None).

(** Local tip (100, a), remote tip (100, b): a fork at equal height. *)
Definition equal_height_node : Bitcoind :=
  mkBitcoind (fun _ => Some (mkTip 100 "b")) (fun _ _ => Some (block_of "b")).

Definition forked_at_100 : Indexer :=
  mkIndexer (mkTip 100 "a") (mkTip 100 "b") (store_at 100 "a") 0.

(** Local tip (100, a), remote tip (250, z). *)
Definition steady_node : Bitcoind :=
  mkBitcoind
    (fun _ => Some (mkTip 250 "z"))
    (fun _ h => Some (block_of (if (h =? 250)%Z then "z" else "b"))).

Definition far_behind : Indexer :=
  mkIndexer (mkTip 100 "a") (mkTip 250 "z") (store_at 100 "a") 0.

End Scenario.

Import Reference Scenario.

(** Every rollback of a trace sends the mempool truncation. *)
Definition rollbacks_truncate (ev : list Event) : Prop :=
  forall h qs c, In (EvTransaction (Rollback h) qs c) ev -> sends_truncate qs.

(** Once an error has been logged nothing more happens: no request
    follows it and no timer is armed. *)
Definition halts_after_error (p : Process) : Prop :=
  forall pre e post,
    observed p = pre ++ EvErrorLogged e :: post ->
    timers p = 0%nat /\ ~ In EvBestBlockRequest post.

(** No pass asks for the remote tip while the gap is 100 or more. *)
Definition no_request_while_gap_at_least_100 (node : Bitcoind) : Prop :=
  forall ix,
    100 <= height (bitcoindBestBlock ix) - height (bestBlock ix) ->
    requests (events (checkSync node ix)) = 0%nat.

(** The state of the run of [fork_node] when its rollback starts. *)
Definition at_fork : Run :=
  mkRun (mkIndexer (mkTip 2 "bb") (mkTip 2 "cc")
           (store_after (executeTransaction (importBlock livenet 2 (block_of "bb"))
                                            false (store_at 1 "aa")))
           3)
        true.

Definition after_first_answer : Run :=
  mkRun (mkIndexer (mkTip 1 "aa") (mkTip 2 "bb") (store_at 1 "aa") 1) false.

(** The process after the first timer of the main loop has fired. *)
Definition after_one_tick : Process :=
  match mainLoop livenet genesis failing_node 1 1 behind_by_one with
  | Some p => p
  | None => mkProcess behind_by_one 0 []
  end.

Definition data_only_tx : Transaction :=
  mkTransaction "txd" "rawd" [mkOutput data_carrier 0; mkOutput data_carrier 1].




(* ------------------------------------------------------------------ *)
(** ** Further vocabulary *)

(** The addresses extracted from the outputs of a transaction, in the
    order of the outputs. *)
Definition extracted {L : Lib} (network : Network) (tx : Transaction)
  : list Address :=
  flat_map (fun o => match addresses network (script o) with
                     | inr (Some addrs) => addrs
                     | _ => []
                     end)
           (tx_outputs tx).

Definition is_storeTx (q : Query) : bool :=
  match text q with
  | Insert transactions _ | Insert transactions_mempool _ => true
  | _ => false
  end.

Definition confirmed_table (t : Table) : bool :=
  match t with
  | blocks | transactions | history => true
  | _ => false
  end.

Definition committed_rollback (e : Event) : bool :=
  match e with
  | EvTransaction (Rollback _) _ true => true
  | _ => false
  end.

(** Whether a rollback commits in a trace before any import has. *)
Fixpoint rollback_first (ev : list Event) : bool :=
  match ev with
  | [] => false
  | e :: rest =>
      if committed_import e then false
      else if committed_rollback e then true
      else rollback_first rest
  end.

Definition aborted_rollback (e : Event) : bool :=
  match e with
  | EvTransaction (Rollback _) _ false => true
  | _ => false
  end.

(** Scanning a trace: [pending] holds when a rollback has aborted and no
    import has committed since. *)
Definition pending_step (pending : bool) (e : Event) : bool :=
  if committed_import e then false
  else if aborted_rollback e then true
  else pending.

(** Whether somewhere in a trace a rollback commits while one that
    aborted is still pending. *)
Fixpoint commits_after_abort (pending : bool) (ev : list Event) : bool :=
  match ev with
  | [] => false
  | e :: rest =>
      (pending && committed_rollback e)
      || commits_after_abort (pending_step pending e) rest
  end.

(** Whether a transaction ended in a commit. *)
Definition committed {A : Type} (x : (Error + A) * bool * DB * list Query) : bool :=
  match x with
  | (inr _, _, _, _) => true
  | (inl _, _, _, _) => false
  end.

Definition is_block_request (e : Event) : bool :=
  match e with
  | EvBlockRequest _ => true
  | _ => false
  end.

(** The number of [TypeError]s that reached the log. *)
Definition type_errors (ev : list Event) : nat :=
  List.length (filter (fun e => match e with
                                | EvErrorLogged TypeError => true
                                | _ => false
                                end) ev).

(** Every confirmed transaction or ownership row has a block row of its
    height. *)
Definition covered (db : DB) : Prop :=
  forall r x,
    In r (rows db transactions) \/ In r (rows db history) ->
    row_height r = Some x ->
    exists b, In b (rows db blocks) /\ row_height b = Some x.

(** The node keeps reporting a tip that is not above the local one and
    has another block id. *)
Definition forked_not_above (node : Bitcoind) (tip : ChainTip) : Prop :=
  forall n, exists t,
    bestBlockAt node n = Some t
    /\ height t <= height tip
    /\ String.eqb (blockid tip) (blockid t) = false.

(** The node keeps reporting the block id the indexer already has. *)
Definition in_sync (node : Bitcoind) (tip : ChainTip) : Prop :=
  forall n, exists t,
    bestBlockAt node n = Some t
    /\ String.eqb (blockid tip) (blockid t) = true.

(** The number of imports that committed in a trace. *)
Definition imports (ev : list Event) : nat :=
  List.length (filter committed_import ev).

(** A block whose only output is a 1-of-2 multisig script. *)
Definition multisig_block : Block :=
  mkBlock "bb" "hdrbb"
          [mkTransaction "txbb" "rawbb" [mkOutput multisig_1_of_2 7]].

(** The node reports the tip the indexer has. *)
Definition quiet_node : Bitcoind :=
  mkBitcoind (fun _ => Some (mkTip 1 "aa")) (fun _ _ => None).

(** The process after two timers of the main loop have fired on the fork
    at equal height. *)
Definition fork_loop : Process :=
  match mainLoop livenet genesis equal_height_node 2 1 forked_at_100 with
  | Some p => p
  | None => mkProcess forked_at_100 0 []
  end.

(** The first pass of the run of [fork_node], and the pass that rolls
    back. *)
Definition first_pass : Outcome * Run * list Event :=
  once livenet genesis fork_node (mkRun behind_by_one false).

Definition rollback_pass : Outcome * Run * list Event :=
  once livenet genesis fork_node at_fork.

Definition failing_pass : Outcome * Run * list Event :=
  once livenet genesis failing_node after_first_answer.

Definition fork_run : Settled * Run * list Event :=
  catchUp_from livenet genesis fork_node 4 (mkRun behind_by_one false).

(* ================================================================== *)
(** * Facts about client calls *)

Section CallFacts.

Lemma In_sent_then_calls (a b : Calls) (q : Query) :
  In q (sent (then_calls a b)) -> In q (sent a) \/ In q (sent b).
Proof.
  unfold then_calls. destruct (thrown a); simpl; intros H.
  - now left.
  - apply in_app_or in H. exact H.
Qed.

Lemma In_sent_all_calls (cs : list Calls) (q : Query) :
  In q (sent (all_calls cs)) -> exists c, In c cs /\ In q (sent c).
Proof.
  induction cs as [|c cs IH]; simpl; intros H.
  - contradiction.
  - apply In_sent_then_calls in H. destruct H as [H|H].
    + exists c. auto.
    + destruct (IH H) as [c' [Hc Hq]]. exists c'. auto.
Qed.

Lemma In_sent_queryAsync (client : option Client) (t : Statement)
    (vs : list Param) (q : Query) :
  In q (sent (queryAsync client t vs)) -> q = mkQuery t vs.
Proof.
  destruct client; simpl; intros H.
  - destruct H as [H|[]]. now symmetry.
  - contradiction.
Qed.

Lemma then_calls_no_calls_l (c : Calls) : then_calls no_calls c = c.
Proof. destruct c; reflexivity. Qed.

Lemma then_calls_no_calls_r (c : Calls) : then_calls c no_calls = c.
Proof.
  destruct c as [s [e|]]; unfold then_calls; simpl; [reflexivity|].
  now rewrite app_nil_r.
Qed.


End CallFacts.

(* ================================================================== *)
(** * The address extractor *)

Section Extractor.

Context {L : Lib}.
Variable network : Network.

Lemma slice_signers {A : Type} (c0 cn cop : A) (signers : list A) :
  Js.slice (c0 :: signers ++ [cn; cop]) 1 (-2) = signers.
Proof.
  unfold Js.slice, Js.rel_index.
  cbn [List.length]. rewrite length_app. cbn [List.length].
  replace (Z.of_nat (S (List.length signers + 2)))
    with (Z.of_nat (List.length signers) + 3) by lia.
  set (n := Z.of_nat (List.length signers)).
  assert (Hn : 0 <= n) by (subst n; lia).
  replace (1 <? 0) with false by reflexivity.
  replace (-2 <? 0) with true by reflexivity.
  replace (Z.min 1 (n + 3)) with 1 by lia.
  replace (Z.max (n + 3 + -2) 0 - 1) with n by lia.
  change (Z.to_nat 1) with 1%nat. cbn [skipn].
  subst n. rewrite Nat2Z.id.
  rewrite firstn_app, firstn_all, Nat.sub_diag. cbn [firstn].
  now rewrite app_nil_r.
Qed.

Lemma map_throwing_total {A B : Type} (f : A -> B) (arr : list A) :
  map_throwing (fun x => inr (f x)) arr = inr (map f arr).
Proof.
  induction arr as [|x arr IH]; simpl; [reflexivity|]. now rewrite IH.
Qed.

Lemma map_throwing_throws {A B : Type} (e : Error) (x : A) (arr : list A) :
  map_throwing (fun _ : A => @inl Error B e) (x :: arr) = inl e.
Proof. reflexivity. Qed.

(** The multisig branch: what every iteration of the map computes does not
    depend on the chunk it is given. *)
Lemma addresses_multisig (s : Script) (c0 cn cop : Chunk) (signers : list Chunk) :
  isPublicKeyHashOut s = false ->
  isScriptHashOut s = false ->
  isMultisigOut s = true ->
  chunks s = c0 :: signers ++ [cn; cop] ->
  addresses network s
  = match buf c0 with
    | Some b =>
        inr (Some (map (fun _ : Chunk =>
                          mkAddress (Some (sha256ripemd160 b)) network
                                    PayToPublicKeyHash)
                       signers))
    | None =>
        match signers with
        | [] => inr (Some [])
        | _ :: _ => inl InvalidArgument
        end
    end.
Proof.
  intros H1 H2 H3 Hc. unfold addresses. rewrite H1, H2, H3.
  unfold chunk_buf. rewrite Hc, slice_signers. cbn [nth_error].
  destruct (buf c0) as [b|]; cbn [Hash_sha256ripemd160].
  - now rewrite map_throwing_total.
  - destruct signers as [|k signers]; [reflexivity|].
    now rewrite map_throwing_throws.
Qed.


End Extractor.

(** C3 (the code departs from this).  For a multisig output script
    [m key_1 ... key_N n OP_CHECKMULTISIG] the callback of the map never
    reads its own argument [pubKey]: every iteration hashes
    [script.chunks[0].buf], the leading required-signatures chunk.  That
    chunk is an opcode and carries no data, so with one signer or more the
    hash is refused in the first iteration and the extraction throws: no
    address is returned.  Were the leading chunk to carry data, the N
    addresses would all be the one built from its hash.  In neither case is
    an address derived from a signer's public key. *)
Theorem C3_multisig_hashes_first_chunk_not_the_keys :
  forall (L : Lib) (network : Network) (s : Script)
         (c0 cn cop : Chunk) (signers : list Chunk),
    isPublicKeyHashOut s = false ->
    isScriptHashOut s = false ->
    isMultisigOut s = true ->
    chunks s = c0 :: signers ++ [cn; cop] ->
    addresses network s
    = match buf c0 with
      | Some b =>
          inr (Some (map (fun _ : Chunk =>
                            mkAddress (Some (sha256ripemd160 b)) network
                                      PayToPublicKeyHash)
                         signers))
      | None =>
          match signers with
          | [] => inr (Some [])
          | _ :: _ => inl InvalidArgument
          end
      end.
Proof.
  intros L network s c0 cn cop signers. apply addresses_multisig.
Qed.

(* ================================================================== *)
(** * The statements of storeTransactions *)

Section StoreFacts.

Context {L : Lib}.
Variable network : Network.


Lemma In_sent_storeOuts (client : option Client) (height : option Z)
    (addrs : list Address) (params : list Param) (q : Query) :
  In q (sent (storeOuts client height addrs params)) ->
  text q = storeOut (queries height).
Proof.
  revert params. induction addrs as [|a addrs IH]; intros params; simpl.
  - contradiction.
  - intros H. apply In_sent_then_calls in H. destruct H as [H|H].
    + apply In_sent_queryAsync in H. now subst q.
    + eapply IH; eassumption.
Qed.

Lemma In_sent_saveOutput (client : option Client) (height : option Z)
    (txid : string) (oi : Output * nat) (q : Query) :
  In q (sent (saveOutput network client height txid oi)) ->
  text q = storeOut (queries height).
Proof.
  unfold saveOutput. destruct oi as [output index].
  destruct (addresses network (script output)) as [e|[addrs|]]; simpl.
  - contradiction.
  - apply In_sent_storeOuts.
  - contradiction.
Qed.

Lemma In_sent_storeTransactions (client : option Client) (height : option Z)
    (txs : list Transaction) (q : Query) :
  In q (sent (storeTransactions network client height txs)) ->
  text q = storeTx (queries height) \/ text q = storeOut (queries height).
Proof.
  unfold storeTransactions. intros H.
  apply In_sent_all_calls in H. destruct H as [c [Hc Hq]].
  apply in_map_iff in Hc. destruct Hc as [tx [<- _]].
  apply In_sent_all_calls in Hq. destruct Hq as [c [Hc Hq]].
  destruct Hc as [<-|[<-|[<-|[]]]].
  - left. unfold saveTx in Hq. apply In_sent_queryAsync in Hq. now subst q.
  - simpl in Hq. contradiction.
  - right. unfold saveOutputs in Hq.
    apply In_sent_all_calls in Hq. destruct Hq as [c [Hc Hq]].
    apply in_map_iff in Hc. destruct Hc as [oi [<- _]].
    eapply In_sent_saveOutput; eassumption.
Qed.



End StoreFacts.




(* ================================================================== *)
(** * The rollback of the reorg branch *)

Section RollbackFacts.

Lemma rollback_flag_set (h : Z) (db : DB) :
  executeTransaction (rollbackTo h) true db
  = (inr tt, true, cut h db, deleteQueries h).
Proof. reflexivity. Qed.

Lemma rollback_flag_clear (h : Z) (db : DB) :
  executeTransaction (rollbackTo h) false db
  = (inl TypeError, true, db, deleteQueries h).
Proof. reflexivity. Qed.

Lemma deleteQueries_no_truncate (h : Z) : ~ sends_truncate (deleteQueries h).
Proof.
  intros [q [Hq Ht]]. simpl in Hq.
  destruct Hq as [<-|[<-|[<-|[]]]]; discriminate.
Qed.

Lemma filter_twice {A : Type} (f : A -> bool) (l : list A) :
  filter f (filter f l) = filter f l.
Proof.
  induction l as [|x l IH]; simpl; [reflexivity|].
  destruct (f x) eqn:E; simpl; [rewrite E, IH|]; auto.
Qed.

Lemma cut_twice (h : Z) (db : DB) : cut h (cut h db) = cut h db.
Proof. unfold cut; simpl. now rewrite !filter_twice. Qed.

(** What a committed rollback keeps: exactly the rows whose height is
    NULL or below [h]. *)
Lemma cut_rows (h : Z) (db : DB) (t : Table) (r : Row) :
  In r (rows (cut h db) t) <->
  In r (rows db t)
  /\ match t with
     | blocks | transactions | history =>
         forall x, row_height r = Some x -> x < h
     | _ => True
     end.
Proof.
  assert (K : keeps h r = true <-> forall x, row_height r = Some x -> x < h).
  { unfold keeps. destruct (row_height r) as [x|].
    - rewrite Z.ltb_lt. split; [intros H y [= <-]; exact H | intros H; now apply H].
    - split; [discriminate | reflexivity]. }
  destruct t; simpl; rewrite ?filter_In, ?K; tauto.
Qed.

Lemma set_storage_same (ix : Indexer) : set_storage ix (storage ix) = ix.
Proof. now destruct ix. Qed.

End RollbackFacts.

(** C1 (as amended).  A rollback of the reorg branch that runs after the
    mempool truncation of its catch-up run has been issued commits the
    three deletes, sends no [TRUNCATE], and leaves both mempool tables as
    they were: the truncation is issued at most once per run. *)
Theorem C1_rollback_after_truncation_leaves_mempool :
  forall (genesis : ChainTip) (r : Run),
    mempoolTruncated r = true ->
    let h := height (bitcoindBestBlock (self r)) in
    exists r',
      reorg genesis r
      = (Reorged, r', [EvReorgWarning h; EvTransaction (Rollback h) (deleteQueries h) true])
      /\ ~ sends_truncate (deleteQueries h)
      /\ mempoolTruncated r' = true
      /\ rows (storage (self r')) transactions_mempool
         = rows (storage (self r)) transactions_mempool
      /\ rows (storage (self r')) history_mempool
         = rows (storage (self r)) history_mempool.
Proof.
  intros genesis r Hf h. unfold reorg. fold h. rewrite Hf, rollback_flag_set.
  eexists. split; [reflexivity|]. split; [apply deleteQueries_no_truncate|].
  repeat split.
Qed.

(** C4 (the code departs from this).  When the rollback is the first
    thing a catch-up run does, [mempoolTruncated] is still false, so
    [tryTruncateMempool()], called without a client, reads [queryAsync] of
    [undefined]: the callback throws after the three deletes were sent, the
    transaction is rolled back, and the store is what it was.  No row of
    height [h] or above is deleted, and the run is rejected. *)
Theorem C4_rollback_first_in_run_deletes_nothing :
  forall (genesis : ChainTip) (r : Run),
    mempoolTruncated r = false ->
    let h := height (bitcoindBestBlock (self r)) in
    reorg genesis r
    = (Failed TypeError, mkRun (self r) true,
       [EvReorgWarning h; EvTransaction (Rollback h) (deleteQueries h) false]).
Proof.
  intros genesis r Hf h. unfold reorg. fold h.
  rewrite Hf, rollback_flag_clear. now rewrite set_storage_same.
Qed.

(** Two rollbacks to the same height, one after the other, with [f1] and
    [f2] the values of [mempoolTruncated] at the two calls: unless the
    first aborts and the second commits, the store after both is the store
    after the first. *)
Lemma rollback_twice (h : Z) (db : DB) (f1 f2 : bool) :
  f1 = true \/ f2 = false ->
  store_after
    (executeTransaction (rollbackTo h) f2
       (store_after (executeTransaction (rollbackTo h) f1 db)))
  = store_after (executeTransaction (rollbackTo h) f1 db).
Proof.
  intros H.
  destruct f1, f2;
    rewrite ?rollback_flag_set, ?rollback_flag_clear; cbn [store_after];
    rewrite ?rollback_flag_set, ?rollback_flag_clear; cbn [store_after];
    try reflexivity.
  - apply cut_twice.
  - destruct H; discriminate.
Qed.

(* ================================================================== *)
(** * The import of a block *)

Section ImportFacts.

Context {L : Lib}.
Variable network : Network.

Lemma add_rows_nil (db : DB) : add_rows db [] [] = db.
Proof. destruct db; unfold add_rows; simpl. now rewrite !app_nil_r. Qed.

Lemma add_rows_add_rows (db : DB) (a b c d : list Row) :
  add_rows (add_rows db a b) c d = add_rows db (a ++ c) (b ++ d).
Proof. unfold add_rows; simpl. now rewrite !app_assoc. Qed.

Lemma then_calls_quiet (a b : Calls) :
  thrown (then_calls a b) = None ->
  thrown a = None /\ thrown b = None
  /\ sent (then_calls a b) = sent a ++ sent b.
Proof.
  unfold then_calls. destruct (thrown a) eqn:E; simpl; intros H.
  - rewrite E in H. discriminate.
  - auto.
Qed.

Lemma exec_all_app (qs1 qs2 : list Query) (db db' : DB) :
  exec_all (qs1 ++ qs2) db = inr db' ->
  exists mid, exec_all qs1 db = inr mid /\ exec_all qs2 mid = inr db'.
Proof.
  revert db. induction qs1 as [|q qs1 IH]; intros db; simpl.
  - intros H. exists db. auto.
  - destruct (exec q db) as [db1|]; [apply IH | discriminate].
Qed.

(** More than one address for an output cannot commit: the second
    statement carries one parameter more than it has placeholders. *)
Lemma storeOuts_commit (c : Client) (h : Z) (txid : string) (output : Output)
    (index : nat) (addrs : list Address) (db db' : DB) :
  exec_all
    (sent (storeOuts (Some c) (Some h) addrs
             (push_height (Some h)
                [PStr txid; PNum (Z.of_nat index); PNum (satoshis output)])))
    db = inr db' ->
  db' = add_rows db [] (map (ownership_row h txid output index) addrs).
Proof.
  destruct addrs as [|a [|b addrs]].
  - simpl. intros [= <-]. now rewrite add_rows_nil.
  - cbn. intros [= <-]. unfold add_rows. now rewrite app_nil_r.
  - cbn. discriminate.
Qed.

Lemma saveOutput_commit (c : Client) (h : Z) (txid : string)
    (oi : Output * nat) (db db' : DB) :
  exec_all (sent (saveOutput network (Some c) (Some h) txid oi)) db = inr db' ->
  db' = add_rows db [] (output_rows network h txid oi).
Proof.
  unfold saveOutput, output_rows. destruct oi as [output index]. simpl fst; simpl snd.
  destruct (addresses network (script output)) as [e|[addrs|]].
  - simpl. intros [= <-]. now rewrite add_rows_nil.
  - apply storeOuts_commit.
  - simpl. intros [= <-]. now rewrite add_rows_nil.
Qed.

Lemma saveOutput_list_commit (c : Client) (h : Z) (txid : string)
    (ois : list (Output * nat)) (db db' : DB) :
  thrown (all_calls (map (saveOutput network (Some c) (Some h) txid) ois)) = None ->
  exec_all (sent (all_calls (map (saveOutput network (Some c) (Some h) txid) ois))) db
  = inr db' ->
  db' = add_rows db [] (flat_map (output_rows network h txid) ois).
Proof.
  revert db. induction ois as [|oi ois IH]; intros db; simpl.
  - intros _ [= <-]. now rewrite add_rows_nil.
  - intros Ht He. apply then_calls_quiet in Ht. destruct Ht as [_ [Ht Hs]].
    rewrite Hs in He. apply exec_all_app in He. destruct He as [mid [H1 H2]].
    apply saveOutput_commit in H1. apply (IH _ Ht) in H2. subst.
    now rewrite add_rows_add_rows.
Qed.

Lemma storeTransactions_commit (c : Client) (h : Z) (txs : list Transaction)
    (db db' : DB) :
  thrown (storeTransactions network (Some c) (Some h) txs) = None ->
  exec_all (sent (storeTransactions network (Some c) (Some h) txs)) db = inr db' ->
  db' = add_rows db (map (tx_row h) txs) (flat_map (ownership_rows network h) txs).
Proof.
  unfold storeTransactions.
  revert db. induction txs as [|tx txs IH]; intros db.
  - simpl. intros _ [= <-]. now rewrite add_rows_nil.
  - cbn [map all_calls]. intros Ht He.
    apply then_calls_quiet in Ht. destruct Ht as [Ht1 [Ht Hs]].
    rewrite Hs in He. apply exec_all_app in He. destruct He as [mid [H1 H2]].
    apply (IH _ Ht) in H2. subst db'.
    rewrite then_calls_no_calls_r, then_calls_no_calls_l in H1, Ht1.
    apply then_calls_quiet in Ht1. destruct Ht1 as [_ [Ht1 Hs1]].
    rewrite Hs1 in H1. apply exec_all_app in H1. destruct H1 as [mid1 [H0 H1]].
    unfold saveOutputs in H1, Ht1.
    apply (saveOutput_list_commit _ _ _ _ _ _ Ht1) in H1.
    cbn in H0. injection H0 as <-. subst mid.
    change (flat_map (output_rows network h (tx_id tx)) (Js.indexed (tx_outputs tx)))
      with (ownership_rows network h tx).
    rewrite add_rows_add_rows. cbn [map flat_map].
    unfold add_rows; simpl. rewrite <- !app_assoc. reflexivity.
Qed.

End ImportFacts.

Section ImportRun.

Context {L : Lib}.
Variable network : Network.

(** The import transaction, step by step. *)
Lemma importBlock_run (h : Z) (block : Block) (flag : bool) (db : DB) :
  let st := storeTransactions network (Some PgClient) (Some h)
                              (block_transactions block) in
  let db0 := if flag then db else without_mempool db in
  let head := truncation flag ++ [blockInsert h block] in
  executeTransaction (importBlock network h block) flag db
  = match exec (blockInsert h block) db0 with
    | None => (inl (QueryError (blockInsert h block)), true, db, head)
    | Some db1 =>
        match thrown st, exec_all (sent st) db1 with
        | Some e, _ => (inl e, true, db, head ++ sent st)
        | None, inl q => (inl (QueryError q), true, db, head ++ sent st)
        | None, inr db2 => (inr tt, true, db2, head ++ sent st)
        end
    end.
Proof.
  intros st db0 head.
  unfold executeTransaction, importBlock, bind, call, await.
  fold st. subst head db0.
  destruct flag; cbn [tryTruncateMempool no_calls queryAsync sent thrown
                      exec_all issued work app truncation];
    fold (blockInsert h block).
  - destruct (exec (blockInsert h block) db) as [db1|]; [|reflexivity].
    cbn [work issued].
    destruct (thrown st), (exec_all (sent st) db1); reflexivity.
  - change (exec (mkQuery truncateQuery []) db) with (Some (without_mempool db)).
    cbn [work issued app].
    destruct (exec (blockInsert h block) (without_mempool db)) as [db1|];
      [|reflexivity].
    cbn [work issued].
    destruct (thrown st), (exec_all (sent st) db1); reflexivity.
Qed.

Lemma blockInsert_commit (h : Z) (block : Block) (db db1 : DB) :
  exec (blockInsert h block) db = Some db1 ->
  db1 = set_rows db blocks (rows db blocks ++ [block_row h block]).
Proof.
  unfold exec, blockInsert. cbn [text values blockQuery].
  cbn [List.length blockValues Nat.eqb negb].
  change (forallb (in_schema blocks) [c_height; c_blockid; c_header; c_txids])
    with true. cbn [negb].
  fold (block_row h block).
  destruct (violates_key blocks (block_row h block) db); [discriminate|].
  now intros [= <-].
Qed.

End ImportRun.

(** C5.  The import of a block commits all of its rows or none: when the
    transaction commits, the store holds the block row, one
    [transactions] row per transaction of the block and one [history] row
    per extracted address of every output (the mempool tables being
    emptied if this run had not done so yet); when any step fails, the
    store is exactly what it was before. *)
Theorem C5_importBlock_all_or_nothing :
  forall (L : Lib) (network : Network) (h : Z) (block : Block)
         (flag : bool) (db : DB),
    match executeTransaction (importBlock network h block) flag db with
    | (inr _, _, db', _) =>
        rows db' blocks = rows db blocks ++ [block_row h block]
        /\ rows db' transactions
           = rows db transactions ++ map (tx_row h) (block_transactions block)
        /\ rows db' history
           = rows db history
             ++ flat_map (ownership_rows network h) (block_transactions block)
        /\ rows db' transactions_mempool
           = (if flag then rows db transactions_mempool else [])
        /\ rows db' history_mempool
           = (if flag then rows db history_mempool else [])
    | (inl _, _, db', _) => db' = db
    end.
Proof.
  intros L network h block flag db.
  rewrite importBlock_run. cbv zeta.
  destruct (exec (blockInsert h block) (if flag then db else without_mempool db))
    as [db1|] eqn:E1; [|reflexivity].
  destruct (thrown _) eqn:Et; [reflexivity|].
  destruct (exec_all _ db1) as [q|db2] eqn:E2; [reflexivity|].
  apply blockInsert_commit in E1.
  apply (storeTransactions_commit network _ _ _ _ _ Et) in E2.
  subst db2 db1. destruct flag; simpl; auto.
Qed.

(* ================================================================== *)
(** * Mempool truncations of a catch-up run *)

Section TruncationFacts.

Context {L : Lib}.
Variable network : Network.
Variable genesis : ChainTip.
Variable node : Bitcoind.

Lemma truncations_app (ev1 ev2 : list Event) :
  truncations (ev1 ++ ev2) = (truncations ev1 + truncations ev2)%nat.
Proof.
  unfold truncations. now rewrite flat_map_app, filter_app, length_app.
Qed.

Lemma storeTransactions_no_truncate (client : option Client) (height : option Z)
    (txs : list Transaction) :
  filter is_truncate (sent (storeTransactions network client height txs)) = [].
Proof.
  assert (H := In_sent_storeTransactions network client height txs).
  induction (sent (storeTransactions network client height txs)) as [|q qs IH];
    [reflexivity|].
  simpl. unfold is_truncate at 1.
  destruct (H q (or_introl eq_refl)) as [E|E]; rewrite E;
    destruct height; simpl; apply IH; intros q' Hq'; apply H; now right.
Qed.

(** What [checkSync] lets an observer see is at most one request. *)
Lemma checkSync_cases (ix : Indexer) :
  exists o ix' ev,
    checkSync node ix = (o, ix', ev)
    /\ (ev = [] \/ ev = [EvBestBlockRequest])
    /\ (o = None \/ o = Some Completed \/ exists e, o = Some (Failed e)).
Proof.
  unfold checkSync.
  destruct (height (bestBlock ix) + 100 <? height (bitcoindBestBlock ix)).
  - do 3 eexists. split; [reflexivity|]. split; eauto.
  - unfold getBitcoindBestBlock. destruct (bestBlockAt node (served ix)).
    + match goal with |- context [if ?c then _ else _] => destruct c end;
        do 3 eexists; (split; [reflexivity|]); split; eauto.
    + do 3 eexists. split; [reflexivity|]. split; eauto.
Qed.

Lemma import_truncations (h : Z) (block : Block) (flag : bool) (db : DB)
    (res : Error + unit) (flag' : bool) (db' : DB) (qs : list Query) :
  executeTransaction (importBlock network h block) flag db = (res, flag', db', qs) ->
  flag' = true
  /\ List.length (filter is_truncate qs) = (if flag then 0 else 1)%nat
  /\ (flag = false -> res = inr tt ->
      qs = mkQuery truncateQuery [] :: blockInsert h block
           :: sent (storeTransactions network (Some PgClient) (Some h)
                      (block_transactions block))).
Proof.
  rewrite importBlock_run. cbv zeta.
  assert (N := storeTransactions_no_truncate (Some PgClient) (Some h)
                 (block_transactions block)).
  intros H.
  destruct (exec (blockInsert h block) _) as [db1|].
  - destruct (thrown _); [|destruct (exec_all _ db1)];
      injection H as <- <- <- <-;
      (split; [reflexivity|]);
      (split; [rewrite filter_app, N; now destruct flag|]);
      intros -> E; try discriminate; reflexivity.
  - injection H as <- <- <- <-. split; [reflexivity|].
    split; [now destruct flag|]. intros _ E. discriminate.
Qed.

Lemma once_flag_set (r : Run) (o : Outcome) (r' : Run) (ev : list Event) :
  mempoolTruncated r = true ->
  once network genesis node r = (o, r', ev) ->
  mempoolTruncated r' = true /\ truncations ev = 0%nat.
Proof.
  intros Hf. unfold once.
  destruct (checkSync_cases (self r)) as [o1 [ix1 [ev1 [E [Hev Ho]]]]].
  rewrite E.
  assert (T1 : truncations ev1 = 0%nat) by (destruct Hev; subst; reflexivity).
  destruct o1 as [o1|].
  - intros [= <- <- <-]. auto.
  - rewrite Hf.
    destruct (height (bestBlock ix1) >=? height (bitcoindBestBlock ix1)).
    + unfold reorg. cbn [mempoolTruncated self]. rewrite rollback_flag_set.
      intros [= <- <- <-]. rewrite truncations_app, T1. auto.
    + unfold forward. cbn [mempoolTruncated self].
      destruct (getBlock node ix1 _) as [[e|block] ix2].
      * intros [= <- <- <-]. rewrite truncations_app, T1. auto.
      * destruct (executeTransaction _ true (storage ix2))
          as [[[res flag'] db'] qs] eqn:X.
        apply import_truncations in X. destruct X as [-> [X _]].
        destruct res; intros [= <- <- <-]; rewrite truncations_app, T1;
          unfold truncations; cbn [flat_map tx_queries app];
          rewrite app_nil_r, X; auto.
Qed.

Lemma catchUp_from_flag_set (passes : nat) (r : Run) :
  mempoolTruncated r = true ->
  truncations (events (catchUp_from network genesis node passes r)) = 0%nat.
Proof.
  revert r. induction passes as [|n IH]; intros r Hf; [reflexivity|].
  cbn [catchUp_from].
  destruct (once network genesis node r) as [[o r1] ev] eqn:E.
  destruct (once_flag_set _ _ _ _ Hf E) as [Hf1 T].
  specialize (IH r1 Hf1).
  destruct (catchUp_from network genesis node n r1) as [[s r2] ev'].
  unfold events in *. cbn [snd] in *.
  destruct o; cbn [snd]; rewrite ?truncations_app, ?T, ?IH; reflexivity.
Qed.

(** The first pass of a run, whose flag is still clear: either it
    imports a block, in a transaction that opens with the truncation, or
    the run ends there without a committed import. *)
Lemma once_flag_clear (r : Run) (o : Outcome) (r' : Run) (ev : list Event) :
  mempoolTruncated r = false ->
  once network genesis node r = (o, r', ev) ->
  (o = Advanced /\ mempoolTruncated r' = true
   /\ exists pre h block,
        existsb is_transaction pre = false
        /\ ev = pre ++ [EvTransaction (Import h)
                          (mkQuery truncateQuery [] :: blockInsert h block
                           :: sent (storeTransactions network (Some PgClient) (Some h)
                                      (block_transactions block)))
                          true;
                        EvImported h (block_id block)])
  \/ ((o = Completed \/ exists e, o = Failed e)
      /\ existsb committed_import ev = false).
Proof.
  intros Hf. unfold once.
  destruct (checkSync_cases (self r)) as [o1 [ix1 [ev1 [E [Hev Ho]]]]].
  rewrite E.
  destruct o1 as [o1|].
  - intros [= <- <- <-]. right. split.
    + destruct Ho as [Ho|[Ho|[e Ho]]]; [discriminate| |]; injection Ho as ->; eauto.
    + destruct Hev; subst; reflexivity.
  - rewrite Hf.
    destruct (height (bestBlock ix1) >=? height (bitcoindBestBlock ix1)).
    + unfold reorg. cbn [mempoolTruncated self]. rewrite rollback_flag_clear.
      intros [= <- <- <-]. right. split; [eauto|].
      destruct Hev; subst; reflexivity.
    + unfold forward. cbn [mempoolTruncated self].
      destruct (getBlock node ix1 _) as [[e|block] ix2].
      * intros [= <- <- <-]. right. split; [eauto|].
        destruct Hev; subst; reflexivity.
      * destruct (executeTransaction _ false (storage ix2))
          as [[[res flag'] db'] qs] eqn:X.
        apply import_truncations in X. destruct X as [-> [_ X]].
        specialize (X eq_refl).
        destruct res as [e|[]]; intros [= <- <- <-].
        -- right. split; [eauto|]. destruct Hev; subst; reflexivity.
        -- left. split; [reflexivity|]. split; [reflexivity|].
           rewrite (X eq_refl).
           exists (ev1 ++ [EvBlockRequest (height (bestBlock ix1) + 1)]),
                  (height (bestBlock ix1) + 1), block.
           split; [destruct Hev; subst; reflexivity|].
           now rewrite <- app_assoc.
Qed.

Lemma first_transaction_app (pre rest : list Event) (e : Event) :
  existsb is_transaction pre = false ->
  is_transaction e = true ->
  first_transaction (pre ++ e :: rest) = Some e.
Proof.
  unfold first_transaction. induction pre as [|x pre IH]; simpl.
  - intros _ ->. reflexivity.
  - intros H He. apply orb_false_iff in H. destruct H as [-> H]. now apply IH.
Qed.

Lemma truncations_tx_free (pre : list Event) :
  existsb is_transaction pre = false -> truncations pre = 0%nat.
Proof.
  unfold truncations. induction pre as [|x pre IH]; simpl; [reflexivity|].
  intros H. apply orb_false_iff in H. destruct H as [Hx H].
  destruct x; try discriminate; simpl; now apply IH.
Qed.

End TruncationFacts.

(** C6.  In a run of [catchUp] that commits the import of at least one
    block, exactly one [TRUNCATE] of the mempool tables is sent.  It is the
    first statement of the first transaction of the run, which is the
    committed import of the first block, and the insert of that block's
    row follows it; so no later transaction of the run sends one. *)
Theorem C6_one_truncation_in_first_import :
  forall (L : Lib) (network : Network) (genesis : ChainTip) (node : Bitcoind)
         (passes : nat) (ix : Indexer),
    let ev := events (catchUp network genesis node passes ix) in
    existsb committed_import ev = true ->
    truncations ev = 1%nat
    /\ exists h block,
         first_transaction ev
         = Some (EvTransaction (Import h)
                   (mkQuery truncateQuery [] :: blockInsert h block
                    :: sent (storeTransactions network (Some PgClient) (Some h)
                               (block_transactions block)))
                   true).
Proof.
  intros L network genesis node passes ix ev. subst ev. unfold catchUp.
  destruct passes as [|n]; [discriminate|].
  cbn [catchUp_from].
  destruct (once network genesis node (mkRun ix false)) as [[o r1] ev1] eqn:E.
  destruct (once_flag_clear network genesis node (mkRun ix false) _ _ _ eq_refl E)
    as [[-> [Hf [pre [h [block [Hpre ->]]]]]] | [Ho Hc]].
  - assert (T := catchUp_from_flag_set network genesis node n r1 Hf).
    destruct (catchUp_from network genesis node n r1) as [[s r2] ev'].
    unfold events in *. cbn [snd] in *. intros _. split.
    + rewrite !truncations_app, T, (truncations_tx_free _ Hpre).
      unfold truncations. cbn [flat_map tx_queries app].
      rewrite app_nil_r. cbn [filter is_truncate text truncateQuery blockInsert blockQuery].
      now rewrite storeTransactions_no_truncate.
    + exists h, block. rewrite <- app_assoc. cbn [app].
      now apply first_transaction_app.
  - unfold events. destruct Ho as [->|[e ->]]; cbn [snd]; rewrite Hc; discriminate.
Qed.

(* ================================================================== *)
(** * Requests for the remote tip *)

Section RequestFacts.

Context {L : Lib}.
Variable network : Network.
Variable genesis : ChainTip.
Variable node : Bitcoind.

Lemma requests_app (ev1 ev2 : list Event) :
  requests (ev1 ++ ev2) = (requests ev1 + requests ev2)%nat.
Proof. unfold requests. now rewrite filter_app, length_app. Qed.

Lemma checkSync_far (ix : Indexer) :
  height (bestBlock ix) + 100 < height (bitcoindBestBlock ix) ->
  checkSync node ix = (None, ix, []).
Proof.
  intros H. unfold checkSync.
  apply Z.ltb_lt in H. now rewrite H.
Qed.

Lemma checkSync_near (ix : Indexer) :
  ~ height (bestBlock ix) + 100 < height (bitcoindBestBlock ix) ->
  events (checkSync node ix) = [EvBestBlockRequest].
Proof.
  intros H. unfold checkSync.
  apply Z.ltb_nlt in H. rewrite H.
  unfold getBitcoindBestBlock. destruct (bestBlockAt node (served ix)).
  - match goal with |- context [if ?c then _ else _] => destruct c end; reflexivity.
  - reflexivity.
Qed.

(** A pass that starts more than 100 blocks behind the cached remote tip
    asks for no tip and rolls nothing back; if it imports, the local tip
    is one higher and the cached remote tip is the same. *)
Lemma once_far (r : Run) (o : Outcome) (r' : Run) (ev : list Event) :
  height (bestBlock (self r)) + 100 < height (bitcoindBestBlock (self r)) ->
  once network genesis node r = (o, r', ev) ->
  requests ev = 0%nat
  /\ existsb is_rollback ev = false
  /\ ((exists e, o = Failed e)
      \/ (o = Advanced
          /\ height (bestBlock (self r')) = height (bestBlock (self r)) + 1
          /\ bitcoindBestBlock (self r') = bitcoindBestBlock (self r))).
Proof.
  intros H. unfold once. rewrite (checkSync_far _ H).
  assert (G : (height (bestBlock (self r)) >=? height (bitcoindBestBlock (self r)))
              = false).
  { rewrite Z.geb_leb. apply Z.leb_gt. lia. }
  rewrite G. unfold forward. cbn [self mempoolTruncated app].
  unfold getBlock. destruct (blockAt node _ _) as [block|].
  - destruct (executeTransaction _ _ _) as [[[[e|[]] flag'] db'] qs];
      intros [= <- <- <-]; (split; [reflexivity|]); (split; [reflexivity|]).
    + left. eauto.
    + right. repeat split.
  - intros [= <- <- <-]. split; [reflexivity|]. split; [reflexivity|].
    left. eauto.
Qed.

Lemma catchUp_from_far (passes : nat) (r : Run) :
  height (bestBlock (self r)) + 100 + Z.of_nat passes
    <= height (bitcoindBestBlock (self r)) ->
  requests (events (catchUp_from network genesis node passes r)) = 0%nat
  /\ existsb is_rollback (events (catchUp_from network genesis node passes r))
     = false.
Proof.
  revert r. induction passes as [|n IH]; intros r H; [split; reflexivity|].
  cbn [catchUp_from].
  destruct (once network genesis node r) as [[o r1] ev] eqn:E.
  assert (F : height (bestBlock (self r)) + 100 < height (bitcoindBestBlock (self r)))
    by lia.
  destruct (once_far _ _ _ _ F E) as [R [B [[e ->] | [-> [Hh Hb]]]]].
  - split; assumption.
  - assert (H1 : height (bestBlock (self r1)) + 100 + Z.of_nat n
                 <= height (bitcoindBestBlock (self r1)))
      by (rewrite Hh, Hb; lia).
    destruct (IH r1 H1) as [R1 B1].
    destruct (catchUp_from network genesis node n r1) as [[s r2] ev'].
    unfold events in *. cbn [snd] in *.
    rewrite requests_app, R, R1, existsb_app, B, B1. split; reflexivity.
Qed.

End RequestFacts.

(** C8 (as amended).  A pass asks for the remote tip exactly when
    [local.height + 100 < remote.height] is false.  So a run that starts
    [passes] passes or more above that threshold, that is with
    [local.height + 100 + passes <= remote.height], goes through [passes]
    passes of forward imports without asking for the remote tip and
    without a rollback; with the local tip at 100 and the cached remote tip
    at 250 these are the imports of 101..150.  The pass that starts with a
    gap of exactly 100 does ask: the requests resume when the gap has come
    down to 100, not only below it. *)
Theorem C8_requery_exactly_when_not_over_100_behind :
  forall (L : Lib) (network : Network) (genesis : ChainTip) (node : Bitcoind),
    (forall ix,
        events (checkSync node ix)
        = if height (bestBlock ix) + 100 <? height (bitcoindBestBlock ix)
          then [] else [EvBestBlockRequest])
    /\ (forall passes r,
           height (bestBlock (self r)) + 100 + Z.of_nat passes
             <= height (bitcoindBestBlock (self r)) ->
           requests (events (catchUp_from network genesis node passes r)) = 0%nat
           /\ existsb is_rollback
                (events (catchUp_from network genesis node passes r)) = false).
Proof.
  intros L network genesis node. split.
  - intros ix.
    destruct (height (bestBlock ix) + 100 <? height (bitcoindBestBlock ix)) eqn:E.
    + apply Z.ltb_lt in E. now rewrite (checkSync_far node ix E).
    + apply Z.ltb_nlt in E. now apply checkSync_near.
  - intros passes r H. now apply catchUp_from_far.
Qed.

(* ================================================================== *)
(** * Errors and the main loop *)

Section LoopFacts.

Context {L : Lib}.
Variable network : Network.
Variable genesis : ChainTip.
Variable node : Bitcoind.

Lemma armed_app (ev1 ev2 : list Event) :
  armed (ev1 ++ ev2) = (armed ev1 + armed ev2)%nat.
Proof. unfold armed. now rewrite filter_app, length_app. Qed.

(** A pass of [catchUp] arms no timer of the main loop. *)
Lemma once_armed (r : Run) : armed (events (once network genesis node r)) = 0%nat.
Proof.
  unfold once.
  destruct (checkSync_cases node (self r)) as [o1 [ix1 [ev1 [E [Hev Ho]]]]].
  rewrite E.
  assert (A1 : armed ev1 = 0%nat) by (destruct Hev; subst; reflexivity).
  destruct o1 as [o1|]; [exact A1|].
  destruct (height (bestBlock ix1) >=? height (bitcoindBestBlock ix1)).
  - unfold reorg.
    destruct (executeTransaction _ _ _) as [[[[e|u] flag'] db'] qs];
      unfold events; cbn [snd]; rewrite armed_app, A1; reflexivity.
  - unfold forward. destruct (getBlock node _ _) as [[e|block] ix2].
    + unfold events; cbn [snd]. rewrite armed_app, A1. reflexivity.
    + destruct (executeTransaction _ _ _) as [[[[e|u] flag'] db'] qs];
        unfold events; cbn [snd]; rewrite armed_app, A1; reflexivity.
Qed.

Lemma catchUp_from_armed (passes : nat) (r : Run) :
  armed (events (catchUp_from network genesis node passes r)) = 0%nat.
Proof.
  revert r. induction passes as [|n IH]; intros r; [reflexivity|].
  cbn [catchUp_from].
  assert (A := once_armed r).
  destruct (once network genesis node r) as [[o r1] ev].
  specialize (IH r1).
  destruct (catchUp_from network genesis node n r1) as [[s r2] ev'].
  unfold events in *. cbn [snd] in *.
  destruct o; cbn [snd]; rewrite ?armed_app, ?A, ?IH; reflexivity.
Qed.

(** An error in a pass rejects the run at that pass. *)
Lemma catchUp_from_failed (n : nat) (r r1 : Run) (e : Error) (ev : list Event) :
  once network genesis node r = (Failed e, r1, ev) ->
  catchUp_from network genesis node (S n) r = (Rejected e, r1, ev).
Proof. intros H. cbn [catchUp_from]. now rewrite H. Qed.

(** Every call of [once] in [mainLoop] that settles arms one timer. *)
Lemma mainLoop_once_armed (passes : nat) (ix ix' : Indexer) (ev : list Event) :
  mainLoop_once network genesis node passes ix = Some (ix', ev) ->
  armed ev = 1%nat.
Proof.
  unfold mainLoop_once.
  destruct (getBitcoindBestBlock node ix) as [[e|b] ix1].
  - intros [= <- <-]. reflexivity.
  - destruct (negb _).
    + assert (A := catchUp_from_armed passes (mkRun (set_bitcoindBestBlock ix1 b) false)).
      unfold catchUp.
      destruct (catchUp_from _ _ _ _ _) as [[[|e|] r] ev0];
        unfold events in A; cbn [snd] in A; intros [= <- <-].
      * change (armed (EvBestBlockRequest :: ev0 ++ [EvSetTimeout]))
          with (armed (ev0 ++ [EvSetTimeout])).
        rewrite armed_app, A. reflexivity.
      * change (armed (EvBestBlockRequest :: ev0 ++ [EvSetTimeout; EvErrorLogged e]))
          with (armed (ev0 ++ [EvSetTimeout; EvErrorLogged e])).
        rewrite armed_app, A. reflexivity.
    + intros [= <- <-]. reflexivity.
Qed.

Lemma run_once_timers (passes : nat) (p p1 : Process) :
  run_once network genesis node passes p = Some p1 ->
  timers p1 = S (timers p)
  /\ armed (observed p1) = S (armed (observed p)).
Proof.
  unfold run_once.
  destruct (mainLoop_once _ _ _ _ _) as [[ix' ev]|] eqn:E; [|discriminate].
  apply mainLoop_once_armed in E. intros [= <-]. cbn [timers observed].
  rewrite armed_app, E. lia.
Qed.

Lemma eventLoop_timers (ticks passes : nat) (p p' : Process) :
  timers p = 1%nat ->
  eventLoop network genesis node ticks passes p = Some p' ->
  timers p' = 1%nat
  /\ armed (observed p') = (armed (observed p) + ticks)%nat.
Proof.
  revert p. induction ticks as [|n IH]; intros p Ht; cbn [eventLoop].
  - intros [= <-]. split; [assumption|lia].
  - rewrite Ht.
    destruct (run_once _ _ _ _ _) as [p1|] eqn:E; [|discriminate].
    apply run_once_timers in E. cbn [timers observed] in E. destruct E as [T A].
    intros H. destruct (IH p1 T H) as [T' A']. rewrite A', A. split; [assumption|lia].
Qed.

End LoopFacts.

(** C2 (as amended).  An error in a pass of [catchUp] other than the two
    control signals rejects the run with that error and no further pass of
    the run is taken.  The main loop goes on all the same: its [finally]
    handler arms the next timer after every call of [once] that settles,
    failed or not, so after [ticks] timers have fired [ticks + 1] calls
    have each armed a timer and one timer is armed. *)
Theorem C2_error_rejects_run_but_loop_goes_on :
  forall (L : Lib) (network : Network) (genesis : ChainTip) (node : Bitcoind),
    (forall n r r1 e ev,
        once network genesis node r = (Failed e, r1, ev) ->
        catchUp_from network genesis node (S n) r = (Rejected e, r1, ev))
    /\ (forall passes p p1,
           run_once network genesis node passes p = Some p1 ->
           timers p1 = S (timers p))
    /\ (forall ticks passes ix p,
           mainLoop network genesis node ticks passes ix = Some p ->
           timers p = 1%nat /\ armed (observed p) = S ticks).
Proof.
  intros L network genesis node. split; [|split].
  - intros n r r1 e ev. apply catchUp_from_failed.
  - intros passes p p1 H. now apply run_once_timers in H.
  - intros ticks passes ix p. unfold mainLoop.
    destruct (run_once _ _ _ _ _) as [p0|] eqn:E; [|discriminate].
    apply run_once_timers in E. cbn [timers observed armed] in E.
    destruct E as [T A]. intros H.
    destruct (eventLoop_timers network genesis node _ _ _ _ T H) as [T' A'].
    split; [assumption|]. rewrite A', A. reflexivity.
Qed.

(* ================================================================== *)
(** * Runs of the scenarios *)

(** The run of [fork_node]: block 2 (bb) is imported, the node switches
    branch, the pass after that rolls back to 2, and block 2 (cc) is
    imported. *)
Example fork_run_resolves :
  let '(s, r, ev) := catchUp livenet genesis fork_node 4 behind_by_one in
  s = Resolved
  /\ bestBlock (self r) = mkTip 2 "cc"
  /\ map (fun e => match e with
                   | EvTransaction k qs c => Some (k, map text qs, c)
                   | _ => None
                   end) (filter is_transaction ev)
     = [Some (Import 2,
              [truncateQuery; blockQuery; storeTx queries_blockchain;
               storeOut queries_blockchain], true);
        Some (Rollback 2,
              [DeleteHeightGe blocks; DeleteHeightGe transactions;
               DeleteHeightGe history], true);
        Some (Import 2,
              [blockQuery; storeTx queries_blockchain;
               storeOut queries_blockchain], true)].
Proof. vm_compute. repeat split. Qed.

(** A fork at equal height met at the start of a run: the rollback
    throws, the run is rejected, and the store is untouched. *)
Example equal_height_fork_rejected :
  let '(s, r, ev) := catchUp livenet genesis equal_height_node 3 forked_at_100 in
  s = Rejected TypeError
  /\ storage (self r) = store_at 100 "a"
  /\ bestBlock (self r) = mkTip 100 "a"
  /\ ev = [EvBestBlockRequest; EvReorgWarning 100;
           EvTransaction (Rollback 100) (deleteQueries 100) false].
Proof. vm_compute. repeat split. Qed.

(** Importing a block with one pay-to-public-key-hash output of 5000 and
    one output of no known kind adds one [history] row and one
    [transactions] row. *)
Example import_one_ownership_row :
  store_after (executeTransaction (importBlock livenet 2 (block_of "bb")) true
                                  (store_at 1 "aa"))
  = mkDB [block_row 1 (block_of "aa"); block_row 2 (block_of "bb")]
         [tx_row 1 (tx_of "aa"); tx_row 2 (tx_of "bb")]
         [[(c_address, PStr (render (mkAddress (Some hash20) livenet PayToPublicKeyHash)));
           (c_txid, PStr "txbb"); (c_index, PNum 0); (c_value, PNum 5000);
           (c_height, PNum 2)]]
         (r_transactions_mempool (store_at 1 "aa"))
         (r_history_mempool (store_at 1 "aa")).
Proof. vm_compute. reflexivity. Qed.

(** A block with a multisig output cannot be stored: the extraction
    throws while the statements are being sent, after the row of the
    transaction, and the import aborts. *)
Example multisig_import_aborts :
  executeTransaction (importBlock livenet 2 multisig_block) true (store_at 1 "aa")
  = (inl InvalidArgument, true, store_at 1 "aa",
     [blockInsert 2 multisig_block;
      mkQuery (storeTx queries_blockchain)
              [PStr "\xtxbb"; PStr "\xrawbb"; PNum 2]]).
Proof. vm_compute. reflexivity. Qed.

(* ================================================================== *)
(** * The claims as first stated, where the code departs from them *)

(** C1 as first stated fails: in the run of [fork_node] the rollback
    comes after an import of the same run has truncated the mempool; it
    commits its three deletes and sends no [TRUNCATE]. *)
Lemma C1_rollback_after_import_sends_no_truncate :
  In (EvTransaction (Rollback 2) (deleteQueries 2) true)
     (events (catchUp livenet genesis fork_node 4 behind_by_one))
  /\ ~ rollbacks_truncate (events (catchUp livenet genesis fork_node 4 behind_by_one)).
Proof.
  assert (H : In (EvTransaction (Rollback 2) (deleteQueries 2) true)
                 (events (catchUp livenet genesis fork_node 4 behind_by_one))).
  { vm_compute. repeat (first [left; reflexivity | right]). }
  split; [exact H|].
  intros C. apply (deleteQueries_no_truncate 2). exact (C _ _ _ H).
Qed.

(** C2 as first stated fails: with [failing_node] the first run of
    [catchUp] is rejected by a failed request, the error is logged, and the
    main loop has armed its timer all the same; the timer fires and the
    next call of [once] sends a request. *)
Lemma C2_loop_goes_on_after_error :
  exists p,
    mainLoop livenet genesis failing_node 1 1 behind_by_one = Some p
    /\ observed p
       = [EvBestBlockRequest; EvBestBlockRequest; EvSetTimeout;
          EvErrorLogged BitcoindError;
          EvBestBlockRequest; EvSetTimeout; EvErrorLogged BitcoindError]
    /\ timers p = 1%nat
    /\ ~ halts_after_error p.
Proof.
  eexists. split; [vm_compute; reflexivity|].
  split; [reflexivity|]. split; [reflexivity|].
  intros C.
  destruct (C [EvBestBlockRequest; EvBestBlockRequest; EvSetTimeout]
              BitcoindError
              [EvBestBlockRequest; EvSetTimeout; EvErrorLogged BitcoindError]
              eq_refl) as [T _].
  discriminate T.
Qed.

(** C8 as first stated fails: from the local tip 100 and the remote tip
    250, fifty passes import 101..150 without a request; the next pass
    starts with the gap at exactly 100, which is not below 100, and asks
    for the remote tip. *)
Lemma C8_request_at_gap_100 :
  (let '(s, r, ev) :=
     catchUp_from livenet genesis steady_node 50 (mkRun far_behind false) in
   height (bestBlock (self r)) = 150
   /\ height (bitcoindBestBlock (self r)) = 250
   /\ requests ev = 0%nat
   /\ requests (events (checkSync steady_node (self r))) = 1%nat)
  /\ ~ no_request_while_gap_at_least_100 steady_node.
Proof.
  split.
  - vm_compute. repeat split.
  - intros C.
    specialize (C (mkIndexer (mkTip 150 "b") (mkTip 250 "z") Sql.empty 0)).
    cbn [height bitcoindBestBlock bestBlock] in C.
    assert (H : 100 <= 250 - 150) by lia.
    specialize (C H). vm_compute in C. discriminate C.
Qed.

(* ================================================================== *)
(** * The theorems at concrete inputs *)

(** C1 at the state in which the rollback of the run of [fork_node] starts. *)
Lemma C1_witness :
  mempoolTruncated at_fork = true
  /\ exists r',
       reorg genesis at_fork
       = (Reorged, r',
          [EvReorgWarning 2; EvTransaction (Rollback 2) (deleteQueries 2) true])
       /\ ~ sends_truncate (deleteQueries 2)
       /\ mempoolTruncated r' = true
       /\ rows (storage (self r')) transactions_mempool
          = rows (storage (self at_fork)) transactions_mempool
       /\ rows (storage (self r')) history_mempool
          = rows (storage (self at_fork)) history_mempool.
Proof.
  split; [reflexivity|].
  exact (C1_rollback_after_truncation_leaves_mempool genesis at_fork eq_refl).
Defined.

(** C2 with [failing_node]: the rejected run, and the main loop after one
    timer. *)
Lemma C2_witness :
  (once livenet genesis failing_node after_first_answer
   = (Failed BitcoindError,
      mkRun (mkIndexer (mkTip 1 "aa") (mkTip 2 "bb") (store_at 1 "aa") 2) false,
      [EvBestBlockRequest])
   /\ catchUp_from livenet genesis failing_node 5 after_first_answer
      = (Rejected BitcoindError,
         mkRun (mkIndexer (mkTip 1 "aa") (mkTip 2 "bb") (store_at 1 "aa") 2) false,
         [EvBestBlockRequest]))
  /\ (mainLoop livenet genesis failing_node 1 1 behind_by_one = Some after_one_tick
      /\ timers after_one_tick = 1%nat
      /\ armed (observed after_one_tick) = 2%nat).
Proof.
  split.
  - assert (H : once livenet genesis failing_node after_first_answer
                = (Failed BitcoindError,
                   mkRun (mkIndexer (mkTip 1 "aa") (mkTip 2 "bb") (store_at 1 "aa") 2)
                         false,
                   [EvBestBlockRequest])) by reflexivity.
    split; [exact H|].
    exact (proj1 (C2_error_rejects_run_but_loop_goes_on
                    lib livenet genesis failing_node) 4%nat _ _ _ _ H).
  - assert (H : mainLoop livenet genesis failing_node 1 1 behind_by_one
                = Some after_one_tick) by (vm_compute; reflexivity).
    split; [exact H|].
    exact (proj2 (proj2 (C2_error_rejects_run_but_loop_goes_on
                           lib livenet genesis failing_node))
                 1%nat 1%nat behind_by_one after_one_tick H).
Defined.

(** C3 on a 1-of-2 multisig script: the extraction throws. *)
Lemma C3_witness :
  (isPublicKeyHashOut multisig_1_of_2 = false
   /\ isScriptHashOut multisig_1_of_2 = false
   /\ isMultisigOut multisig_1_of_2 = true
   /\ chunks multisig_1_of_2
      = op OP_1 :: [push key1; push key2] ++ [op OP_2; op OP_CHECKMULTISIG])
  /\ addresses livenet multisig_1_of_2 = inl InvalidArgument.
Proof.
  split; [repeat split|].
  exact (C3_multisig_hashes_first_chunk_not_the_keys
           lib livenet multisig_1_of_2 (op OP_1) (op OP_2) (op OP_CHECKMULTISIG)
           [push key1; push key2] eq_refl eq_refl eq_refl eq_refl).
Defined.

(** C4 on a fork at equal height met at the start of a run. *)
Lemma C4_witness :
  mempoolTruncated (mkRun forked_at_100 false) = false
  /\ reorg genesis (mkRun forked_at_100 false)
     = (Failed TypeError, mkRun forked_at_100 true,
        [EvReorgWarning 100;
         EvTransaction (Rollback 100) (deleteQueries 100) false]).
Proof.
  split; [reflexivity|].
  exact (C4_rollback_first_in_run_deletes_nothing
           genesis (mkRun forked_at_100 false) eq_refl).
Defined.

(** C6 on the run of [fork_node]. *)
Lemma C6_witness :
  existsb committed_import
    (events (catchUp livenet genesis fork_node 4 behind_by_one)) = true
  /\ truncations (events (catchUp livenet genesis fork_node 4 behind_by_one)) = 1%nat.
Proof.
  assert (H : existsb committed_import
                (events (catchUp livenet genesis fork_node 4 behind_by_one)) = true)
    by (vm_compute; reflexivity).
  split; [exact H|].
  exact (proj1 (C6_one_truncation_in_first_import
                  lib livenet genesis fork_node 4%nat behind_by_one H)).
Defined.


(** C8 from the local tip 100 with the remote tip 250: fifty passes. *)
Lemma C8_witness :
  height (bestBlock far_behind) + 100 + Z.of_nat 50
    <= height (bitcoindBestBlock far_behind)
  /\ requests (events (catchUp_from livenet genesis steady_node 50
                                    (mkRun far_behind false))) = 0%nat
  /\ existsb is_rollback
       (events (catchUp_from livenet genesis steady_node 50
                             (mkRun far_behind false))) = false.
Proof.
  assert (H : height (bestBlock far_behind) + 100 + Z.of_nat 50
              <= height (bitcoindBestBlock far_behind))
    by (vm_compute; discriminate).
  split; [exact H|].
  exact (proj2 (C8_requery_exactly_when_not_over_100_behind
                  lib livenet genesis steady_node)
               50%nat (mkRun far_behind false) H).
Defined.


(* ================================================================== *)
(** * More on the statements sent *)

Section StoreMore.

Context {L : Lib}.
Variable network : Network.

Lemma sent_storeOuts_cons (c : Client) (height : option Z) (a : Address)
    (rest : list Address) (params : list Param) :
  sent (storeOuts (Some c) height (a :: rest) params)
  = mkQuery (storeOut (queries height)) (PStr (addressToString a) :: params)
    :: sent (storeOuts (Some c) height rest (PStr (addressToString a) :: params)).
Proof.
  cbn [storeOuts queryAsync]. unfold then_calls. reflexivity.
Qed.

Lemma indexed_from_In {A : Type} (arr : list A) (n i : nat) (x : A) :
  nth_error arr i = Some x -> In (x, (n + i)%nat) (Js.indexed_from n arr).
Proof.
  revert n i. induction arr as [|y arr IH]; intros n i; [destruct i; discriminate|].
  destruct i as [|i]; cbn [nth_error Js.indexed_from].
  - intros [= <-]. left. f_equal. lia.
  - intros H. right. replace (n + S i)%nat with (S n + i)%nat by lia. now apply IH.
Qed.

Lemma all_calls_quiet (cs : list Calls) (c : Calls) :
  thrown (all_calls cs) = None -> In c cs -> thrown c = None.
Proof.
  induction cs as [|c0 cs IH]; simpl; [contradiction|].
  intros Ht Hin. apply then_calls_quiet in Ht. destruct Ht as [H0 [Ht _]].
  destruct Hin as [<-|Hin]; [exact H0 | now apply IH].
Qed.

(** An output whose extraction throws makes [storeTransactions] throw. *)
Lemma storeTransactions_throws (client : option Client) (height : option Z)
    (txs : list Transaction) (tx : Transaction) (index : nat) (output : Output)
    (e : Error) :
  In tx txs ->
  nth_error (tx_outputs tx) index = Some output ->
  addresses network (script output) = inl e ->
  thrown (storeTransactions network client height txs) <> None.
Proof.
  intros Hin Hn Ha Ht. unfold storeTransactions in Ht.
  assert (H1 := all_calls_quiet _ _ Ht (in_map _ _ _ Hin)).
  cbv beta in H1.
  assert (H2 := all_calls_quiet _ (saveOutputs network client height tx) H1).
  assert (H3 : thrown (saveOutputs network client height tx) = None)
    by (apply H2; right; right; left; reflexivity).
  unfold saveOutputs in H3.
  assert (H4 := all_calls_quiet _ _ H3
                  (in_map (saveOutput network client height (tx_id tx)) _ _
                          (indexed_from_In (tx_outputs tx) 0 index output Hn))).
  unfold saveOutput in H4. rewrite Ha in H4. discriminate H4.
Qed.

(** Without an exception every transaction sends its own row and one
    statement per extracted address. *)
Lemma storeOuts_length (c : Client) (height : option Z) (addrs : list Address)
    (params : list Param) :
  List.length (sent (storeOuts (Some c) height addrs params)) = List.length addrs
  /\ filter is_storeTx (sent (storeOuts (Some c) height addrs params)) = [].
Proof.
  revert params. induction addrs as [|a rest IH]; intros params; [split; reflexivity|].
  rewrite sent_storeOuts_cons. cbn [List.length filter].
  destruct (IH (PStr (addressToString a) :: params)) as [Hl Hf].
  rewrite Hl. split; [reflexivity|].
  replace (is_storeTx _) with false by (destruct height; reflexivity).
  exact Hf.
Qed.

Lemma saveOutput_list_length (c : Client) (height : option Z) (txid : string)
    (ois : list (Output * nat)) :
  thrown (all_calls (map (saveOutput network (Some c) height txid) ois)) = None ->
  List.length (sent (all_calls (map (saveOutput network (Some c) height txid) ois)))
  = List.length
      (flat_map (fun oi : Output * nat =>
                   match addresses network (script (fst oi)) with
                   | inr (Some addrs) => addrs
                   | _ => []
                   end) ois)
  /\ filter is_storeTx
       (sent (all_calls (map (saveOutput network (Some c) height txid) ois))) = [].
Proof.
  induction ois as [|oi ois IH]; simpl; [split; reflexivity|].
  intros Ht. apply then_calls_quiet in Ht. destruct Ht as [Ht0 [Ht Hs]].
  rewrite Hs, length_app, filter_app, length_app.
  destruct (IH Ht) as [Hl Hf]. rewrite Hl, Hf.
  unfold saveOutput in *. destruct oi as [output index]. cbn [fst].
  destruct (addresses network (script output)) as [e|[addrs|]].
  - discriminate.
  - destruct (storeOuts_length c height addrs
                (push_height height
                   [PStr txid; PNum (Z.of_nat index); PNum (satoshis output)]))
      as [Hl0 Hf0].
    rewrite Hl0, Hf0. split; reflexivity.
  - split; reflexivity.
Qed.

Lemma flat_map_indexed_from {A B : Type} (f : A -> list B) (n : nat) (arr : list A) :
  flat_map (fun oi : A * nat => f (fst oi)) (Js.indexed_from n arr) = flat_map f arr.
Proof.
  revert n. induction arr as [|x arr IH]; intros n; simpl; [reflexivity|].
  now rewrite IH.
Qed.

End StoreMore.

(** X4.  A block that holds a multisig output with at least one signer
    chunk, the leading chunk being an opcode without data, cannot be
    imported: the extraction throws while [storeTransactions] is sending
    its statements, the transaction ends in an error, and the store is
    exactly what it was. *)
Theorem import_with_multisig_output_aborts :
  forall (L : Lib) (network : Network) (h : Z) (block : Block) (flag : bool)
         (db : DB) (tx : Transaction) (index : nat) (output : Output)
         (c0 k cn cop : Chunk) (signers : list Chunk),
    In tx (block_transactions block) ->
    nth_error (tx_outputs tx) index = Some output ->
    isPublicKeyHashOut (script output) = false ->
    isScriptHashOut (script output) = false ->
    isMultisigOut (script output) = true ->
    chunks (script output) = c0 :: (k :: signers) ++ [cn; cop] ->
    buf c0 = None ->
    thrown (storeTransactions network (Some PgClient) (Some h)
                              (block_transactions block)) <> None
    /\ exists e qs,
         executeTransaction (importBlock network h block) flag db
         = (inl e, true, db, qs).
Proof.
  intros L network h block flag db tx index output c0 k cn cop signers
         Hin Hn H1 H2 H3 Hc Hb.
  assert (Ha : addresses network (script output) = inl InvalidArgument).
  { rewrite (addresses_multisig network _ c0 cn cop (k :: signers) H1 H2 H3 Hc).
    now rewrite Hb. }
  assert (Ht := storeTransactions_throws network (Some PgClient) (Some h)
                  _ _ _ _ _ Hin Hn Ha).
  split; [exact Ht|].
  rewrite importBlock_run. cbv zeta.
  destruct (exec (blockInsert h block) _) as [db1|]; [|eauto].
  destruct (thrown _) eqn:Et; [eauto | contradiction].
Qed.

(** X12.  When no exception interrupts it, [storeTransactions] sends one
    transaction insert per transaction, in the order of the block, and
    besides them exactly one statement per extracted address. *)
Theorem storeTransactions_statement_count :
  forall (L : Lib) (network : Network) (c : Client) (height : option Z)
         (txs : list Transaction),
    thrown (storeTransactions network (Some c) height txs) = None ->
    filter is_storeTx (sent (storeTransactions network (Some c) height txs))
    = map (fun tx => mkQuery (storeTx (queries height))
                       (push_height height
                          [PStr (bytea (tx_id tx)); PStr (bytea (tx_hex tx))]))
          txs
    /\ List.length (sent (storeTransactions network (Some c) height txs))
       = (List.length txs + List.length (flat_map (extracted network) txs))%nat.
Proof.
  intros L network c height txs. unfold storeTransactions.
  set (f := fun tx : Transaction =>
              all_calls [saveTx (Some c) height tx; saveInputs tx;
                         saveOutputs network (Some c) height tx]).
  induction txs as [|tx txs IH]; [split; reflexivity|].
  cbn [map all_calls]. intros Ht.
  apply then_calls_quiet in Ht. destruct Ht as [Ht1 [Ht Hs]].
  rewrite Hs, filter_app, length_app.
  destruct (IH Ht) as [Hf Hl]. rewrite Hf, Hl.
  subst f. cbv beta in Ht1 |- *. cbn [all_calls] in Ht1 |- *.
  rewrite then_calls_no_calls_r, then_calls_no_calls_l in Ht1 |- *.
  apply then_calls_quiet in Ht1. destruct Ht1 as [_ [Ht1 Hs1]].
  rewrite Hs1. unfold saveOutputs in *.
  destruct (saveOutput_list_length network c height (tx_id tx) _ Ht1) as [Hl1 Hf1].
  rewrite filter_app, length_app, Hf1, Hl1.
  unfold Js.indexed.
  rewrite (flat_map_indexed_from
             (fun o => match addresses network (script o) with
                       | inr (Some addrs) => addrs
                       | _ => []
                       end)).
  fold (extracted network tx).
  cbn [saveTx queryAsync sent filter List.length flat_map app].
  replace (is_storeTx _) with true by (destruct height; reflexivity).
  rewrite length_app. split; [reflexivity|]. cbn [List.length app]. lia.
Qed.

(* ================================================================== *)
(** * The shape of a pass *)

Section PassShape.

Context {L : Lib}.
Variable network : Network.
Variable genesis : ChainTip.
Variable node : Bitcoind.

Lemma executeTransaction_error {A : Type} (fn : option Client -> Body A)
    (flag flag' : bool) (db db' : DB) (e : Error) (qs : list Query) :
  executeTransaction fn flag db = (inl e, flag', db', qs) -> db' = db.
Proof.
  unfold executeTransaction.
  destruct (fn (Some PgClient) flag (mkConn db [])) as [[[e0|a] f] conn];
    now intros [= _ _ <- _].
Qed.

(** The store a committed import leaves. *)
Lemma import_commit_store (h : Z) (block : Block) (flag flag' : bool)
    (db db' : DB) (u : unit) (qs : list Query) :
  executeTransaction (importBlock network h block) flag db = (inr u, flag', db', qs) ->
  let db0 := if flag then db else without_mempool db in
  flag' = true
  /\ db' = add_rows (set_rows db0 blocks (rows db0 blocks ++ [block_row h block]))
                    (map (tx_row h) (block_transactions block))
                    (flat_map (ownership_rows network h) (block_transactions block)).
Proof.
  rewrite importBlock_run. cbv zeta.
  destruct (exec (blockInsert h block) _) as [db1|] eqn:E1; [|discriminate].
  destruct (thrown _) eqn:Et; [discriminate|].
  destruct (exec_all _ db1) as [q|db2] eqn:E2; [discriminate|].
  intros [= _ <- <- _]. split; [reflexivity|].
  apply blockInsert_commit in E1.
  apply (storeTransactions_commit network _ _ _ _ _ Et) in E2.
  now subst.
Qed.

Lemma checkSync_shape (ix ix1 : Indexer) (o1 : option Outcome) (ev1 : list Event) :
  checkSync node ix = (o1, ix1, ev1) ->
  storage ix1 = storage ix
  /\ bestBlock ix1 = bestBlock ix
  /\ (ev1 = [] \/ ev1 = [EvBestBlockRequest])
  /\ match o1 with
     | None => True
     | Some Completed =>
         String.eqb (blockid (bestBlock ix1)) (blockid (bitcoindBestBlock ix1)) = true
         /\ ev1 = [EvBestBlockRequest]
     | Some (Failed _) => True
     | Some _ => False
     end.
Proof.
  unfold checkSync.
  destruct (height (bestBlock ix) + 100 <? height (bitcoindBestBlock ix)).
  - intros [= <- <- <-]. auto.
  - unfold getBitcoindBestBlock. destruct (bestBlockAt node (served ix)) as [t|].
    + destruct (String.eqb _ _) eqn:E; intros [= <- <- <-]; cbn; auto 10.
    + intros [= <- <- <-]. cbn. auto 10.
Qed.

Ltac run_ends Q1 Q2 :=
  split; [first [left; reflexivity | right; eexists; reflexivity]|];
  split; [reflexivity|]; split; [reflexivity|];
  split; [rewrite ?existsb_app, ?Q1; reflexivity|];
  split; [rewrite ?existsb_app, ?Q2; reflexivity|];
  try discriminate.

(** One pass of [once]: it ends the run and touches neither the store
    nor the local tip, or it commits a rollback to the height of the remote
    tip, or it commits the import of the block above the local tip. *)
Lemma once_shape (r r' : Run) (o : Outcome) (ev : list Event) :
  once network genesis node r = (o, r', ev) ->
  let db := storage (self r) in
  let local := bestBlock (self r) in
  let remote := bitcoindBestBlock (self r') in
  ((o = Completed \/ exists e, o = Failed e)
   /\ storage (self r') = db
   /\ bestBlock (self r') = local
   /\ existsb committed_import ev = false
   /\ existsb committed_rollback ev = false
   /\ (o = Completed ->
       String.eqb (blockid local) (blockid remote) = true
       /\ ev = [EvBestBlockRequest]))
  \/ (o = Reorged
      /\ mempoolTruncated r = true /\ mempoolTruncated r' = true
      /\ height remote <= height local
      /\ storage (self r') = cut (height remote) db
      /\ bestBlock (self r') = getBestBlock genesis (cut (height remote) db)
      /\ exists pre,
           (pre = [] \/ pre = [EvBestBlockRequest])
           /\ ev = pre ++ [EvReorgWarning (height remote);
                           EvTransaction (Rollback (height remote))
                                         (deleteQueries (height remote)) true])
  \/ (o = Advanced
      /\ mempoolTruncated r' = true
      /\ height local < height remote
      /\ exists block qs pre,
           blockAt node (served (self r') - 1) (height local + 1) = Some block
           /\ bestBlock (self r') = mkTip (height local + 1) (block_id block)
           /\ (let db0 := if mempoolTruncated r then db else without_mempool db in
               storage (self r')
               = add_rows (set_rows db0 blocks
                             (rows db0 blocks ++ [block_row (height local + 1) block]))
                          (map (tx_row (height local + 1)) (block_transactions block))
                          (flat_map (ownership_rows network (height local + 1))
                                    (block_transactions block)))
           /\ (pre = [] \/ pre = [EvBestBlockRequest])
           /\ ev = pre ++ [EvBlockRequest (height local + 1);
                           EvTransaction (Import (height local + 1)) qs true;
                           EvImported (height local + 1) (block_id block)]).
Proof.
  unfold once.
  destruct (checkSync node (self r)) as [[o1 ix1] ev1] eqn:E.
  apply checkSync_shape in E. destruct E as [Hs [Hb [Hev Ho]]].
  assert (Q : existsb committed_import ev1 = false
              /\ existsb committed_rollback ev1 = false)
    by (destruct Hev; subst; split; reflexivity).
  destruct Q as [Q1 Q2].
  destruct o1 as [o1|].
  - intros [= <- <- <-]. cbv zeta. cbn [self]. left.
    rewrite Hs, Hb. destruct o1; try contradiction.
    + destruct Ho as [Ho ->]. rewrite Hb in Ho. run_ends Q1 Q2.
      intros _. split; [exact Ho|reflexivity].
    + run_ends Q1 Q2.
  - destruct (height (bestBlock ix1) >=? height (bitcoindBestBlock ix1)) eqn:G.
    + unfold reorg. cbn [self mempoolTruncated].
      destruct (mempoolTruncated r) eqn:F.
      * rewrite rollback_flag_set. intros [= <- <- <-]. cbv zeta. cbn [self].
        right. left. rewrite <- Hs, <- Hb.
        rewrite Z.geb_leb in G. apply Z.leb_le in G.
        repeat split; auto. exists ev1. split; [exact Hev|reflexivity].
      * rewrite rollback_flag_clear. intros [= <- <- <-]. cbv zeta. cbn [self].
        left. rewrite set_storage_same, Hs, Hb. run_ends Q1 Q2.
    + rewrite Z.geb_leb in G. apply Z.leb_gt in G.
      unfold forward. cbn [self mempoolTruncated].
      unfold getBlock. destruct (blockAt node (served ix1) _) as [block|] eqn:B.
      * destruct (executeTransaction _ _ _) as [[[[e|u] flag'] db'] qs] eqn:X.
        -- apply executeTransaction_error in X. subst db'.
           intros [= <- <- <-]. cbv zeta. cbn [self]. left.
           cbn [tick storage bestBlock set_storage]. rewrite Hs, Hb.
           run_ends Q1 Q2.
        -- apply import_commit_store in X. destruct X as [-> X].
           intros [= <- <- <-]. cbv zeta. cbn [self]. right. right.
           cbn [tick storage bestBlock bitcoindBestBlock set_storage set_bestBlock
                served mempoolTruncated] in *.
           rewrite <- Hs, <- Hb. split; [reflexivity|]. split; [reflexivity|].
           split; [exact G|].
           exists block, qs, ev1.
           replace (S (served ix1) - 1)%nat with (served ix1) by lia.
           split; [exact B|]. split; [reflexivity|]. split; [exact X|].
           split; [exact Hev|reflexivity].
      * intros [= <- <- <-]. cbv zeta. cbn [self]. left.
        cbn [tick storage bestBlock]. rewrite Hs, Hb. run_ends Q1 Q2.
Qed.

End PassShape.

Section PassFacts.

Context {L : Lib}.
Variable network : Network.
Variable genesis : ChainTip.
Variable node : Bitcoind.

Lemma rollback_first_none (ev : list Event) :
  existsb committed_rollback ev = false -> rollback_first ev = false.
Proof.
  induction ev as [|e ev IH]; [reflexivity|].
  cbn [existsb rollback_first]. intros H.
  apply orb_false_iff in H. destruct H as [-> H].
  destruct (committed_import e); [reflexivity|]. now apply IH.
Qed.

Lemma ownership_rows_height (h : Z) (tx : Transaction) (r : Row) :
  In r (ownership_rows network h tx) -> row_height r = Some h.
Proof.
  unfold ownership_rows, output_rows. intros H.
  apply in_flat_map in H. destruct H as [oi [_ H]].
  destruct (addresses network (script (fst oi))) as [e|[addrs|]];
    try contradiction.
  apply in_map_iff in H. destruct H as [a [<- _]]. reflexivity.
Qed.

Lemma rows_without_mempool (db : DB) (t : Table) :
  confirmed_table t = true -> rows (without_mempool db) t = rows db t.
Proof. destruct t; (discriminate || reflexivity). Qed.

(** The confirmed tables after a committed import. *)
Lemma import_rows (h : Z) (block : Block) (flag : bool) (db : DB) :
  let db0 := if flag then db else without_mempool db in
  let db' := add_rows (set_rows db0 blocks (rows db0 blocks ++ [block_row h block]))
                      (map (tx_row h) (block_transactions block))
                      (flat_map (ownership_rows network h) (block_transactions block)) in
  rows db' blocks = rows db blocks ++ [block_row h block]
  /\ rows db' transactions
     = rows db transactions ++ map (tx_row h) (block_transactions block)
  /\ rows db' history
     = rows db history
       ++ flat_map (ownership_rows network h) (block_transactions block)
  /\ rows db' transactions_mempool = (if flag then rows db transactions_mempool else [])
  /\ rows db' history_mempool = (if flag then rows db history_mempool else []).
Proof. destruct flag; cbn; auto. Qed.

Lemma once_covered (r r' : Run) (o : Outcome) (ev : list Event) :
  once network genesis node r = (o, r', ev) ->
  covered (storage (self r)) -> covered (storage (self r')).
Proof.
  intros H C. apply once_shape in H. cbv zeta in H.
  destruct H as [[_ [-> _]] | [[_ [_ [_ [_ [-> _]]]]]
                              | [_ [_ [_ [block [qs [pre [_ [_ [-> _]]]]]]]]]]].
  - exact C.
  - set (h := height (bitcoindBestBlock (self r'))).
    intros row x Hin Hx.
    assert (Hold : (In row (rows (storage (self r)) transactions)
                    \/ In row (rows (storage (self r)) history))
                   /\ x < h).
    { destruct Hin as [Hin|Hin]; apply cut_rows in Hin; destruct Hin as [Hin Hk];
        (split; [auto | now apply Hk]). }
    destruct Hold as [Hold Hlt].
    destruct (C row x Hold Hx) as [b [Hb Hbx]].
    exists b. split; [|exact Hbx].
    apply cut_rows. split; [exact Hb|]. intros y Hy. congruence.
  - set (h := height (bestBlock (self r)) + 1).
    destruct (import_rows h block (mempoolTruncated r) (storage (self r)))
      as [Hb [Ht [Hh _]]].
    cbv zeta in Hb, Ht, Hh. fold h.
    intros row x Hin Hx. rewrite Hb. rewrite Ht, Hh in Hin.
    assert (Hcase : (In row (rows (storage (self r)) transactions)
                     \/ In row (rows (storage (self r)) history))
                    \/ row_height row = Some h).
    { destruct Hin as [Hin|Hin]; apply in_app_or in Hin; destruct Hin as [Hin|Hin];
        auto.
      - right. apply in_map_iff in Hin. destruct Hin as [tx [<- _]]. reflexivity.
      - right. apply in_flat_map in Hin. destruct Hin as [tx [_ Hin]].
        now apply ownership_rows_height in Hin. }
    destruct Hcase as [Hold|Hnew].
    + destruct (C row x Hold Hx) as [b [Hb' Hbx]].
      exists b. split; [apply in_or_app; now left | exact Hbx].
    + exists (block_row h block). split; [apply in_or_app; right; now left|].
      rewrite Hx in Hnew. injection Hnew as ->. reflexivity.
Qed.

End PassFacts.

(** X5.  A pass that neither imports nor rolls back (it resolves the run
    or fails) leaves the store and the local tip exactly as they were, and
    no transaction of it has committed. *)
Theorem pass_that_ends_run_changes_nothing :
  forall (L : Lib) (network : Network) (genesis : ChainTip) (node : Bitcoind)
         (r r' : Run) (o : Outcome) (ev : list Event),
    once network genesis node r = (o, r', ev) ->
    o <> Advanced -> o <> Reorged ->
    storage (self r') = storage (self r)
    /\ bestBlock (self r') = bestBlock (self r)
    /\ existsb committed_import ev = false
    /\ existsb committed_rollback ev = false.
Proof.
  intros L network genesis node r r' o ev H Ha Hr.
  apply once_shape in H. cbv zeta in H.
  destruct H as [[_ [Hs [Hb [Hi [Hc _]]]]] | [[Ho _] | [Ho _]]];
    [auto | contradiction | contradiction].
Qed.

(** X6.  A pass that imports fetched the block one above the local tip;
    afterwards the local tip is that height with the id of the fetched
    block, it is not above the remote tip the pass acted on, and the
    confirmed tables have gained the rows of the block and lost none. *)
Theorem pass_that_imports_advances_by_one :
  forall (L : Lib) (network : Network) (genesis : ChainTip) (node : Bitcoind)
         (r r' : Run) (ev : list Event),
    once network genesis node r = (Advanced, r', ev) ->
    let h := height (bestBlock (self r)) + 1 in
    exists block,
      blockAt node (served (self r') - 1) h = Some block
      /\ bestBlock (self r') = mkTip h (block_id block)
      /\ h <= height (bitcoindBestBlock (self r'))
      /\ rows (storage (self r')) blocks
         = rows (storage (self r)) blocks ++ [block_row h block]
      /\ rows (storage (self r')) transactions
         = rows (storage (self r)) transactions
           ++ map (tx_row h) (block_transactions block)
      /\ rows (storage (self r')) history
         = rows (storage (self r)) history
           ++ flat_map (ownership_rows network h) (block_transactions block).
Proof.
  intros L network genesis node r r' ev H h.
  apply once_shape in H. cbv zeta in H.
  destruct H as [[[Ho|[e Ho]] _] | [[Ho _] | [_ [_ [Hlt [block [qs [pre H]]]]]]]];
    try discriminate.
  destruct H as [Hb [Ht [Hs _]]]. fold h in Hb, Ht, Hs.
  destruct (import_rows network h block (mempoolTruncated r) (storage (self r)))
    as [R1 [R2 [R3 _]]].
  cbv zeta in R1, R2, R3. rewrite <- Hs in R1, R2, R3.
  exists block. repeat split; auto. unfold h. lia.
Qed.

(** X7.  In a run of [catchUp] no rollback commits before an import of
    the same run has committed. *)
Theorem no_rollback_commits_before_an_import :
  forall (L : Lib) (network : Network) (genesis : ChainTip) (node : Bitcoind)
         (passes : nat) (ix : Indexer),
    rollback_first (events (catchUp network genesis node passes ix)) = false.
Proof.
  intros L network genesis node passes ix. unfold catchUp.
  destruct passes as [|n]; [reflexivity|]. cbn [catchUp_from].
  destruct (once network genesis node (mkRun ix false)) as [[o r1] ev1] eqn:E.
  apply once_shape in E. cbv zeta in E.
  destruct E as [[Ho [_ [_ [_ [Hc _]]]]] | [[_ [F _]] | [-> [_ [_ H]]]]].
  - apply rollback_first_none in Hc.
    destruct Ho as [->|[e ->]]; exact Hc.
  - discriminate F.
  - destruct H as [block [qs [pre [_ [_ [_ [Hpre ->]]]]]]].
    destruct (catchUp_from network genesis node n r1) as [[s r2] ev'].
    unfold events. cbn [snd]. destruct Hpre as [->| ->]; reflexivity.
Qed.

(** X8.  When a run of [catchUp] resolves, the last thing it did was to
    ask for the remote tip, and the local tip has the block id of that
    answer. *)
Theorem resolved_run_has_the_remote_block_id :
  forall (L : Lib) (network : Network) (genesis : ChainTip) (node : Bitcoind)
         (passes : nat) (r r' : Run) (ev : list Event),
    catchUp_from network genesis node passes r = (Resolved, r', ev) ->
    blockid (bestBlock (self r')) = blockid (bitcoindBestBlock (self r'))
    /\ exists ev0, ev = ev0 ++ [EvBestBlockRequest].
Proof.
  intros L network genesis node passes.
  induction passes as [|n IH]; intros r r' ev; [discriminate|].
  cbn [catchUp_from].
  destruct (once network genesis node r) as [[o r1] ev1] eqn:E.
  destruct o.
  - destruct (catchUp_from network genesis node n r1) as [[s r2] ev2] eqn:E2.
    intros [= -> <- <-]. destruct (IH _ _ _ E2) as [Hb [ev0 ->]].
    split; [exact Hb|]. exists (ev1 ++ ev0). now rewrite app_assoc.
  - destruct (catchUp_from network genesis node n r1) as [[s r2] ev2] eqn:E2.
    intros [= -> <- <-]. destruct (IH _ _ _ E2) as [Hb [ev0 ->]].
    split; [exact Hb|]. exists (ev1 ++ ev0). now rewrite app_assoc.
  - intros [= <- <-]. apply once_shape in E. cbv zeta in E.
    destruct E as [[_ [_ [Hb [_ [_ H]]]]] | [[Ho _] | [Ho _]]]; try discriminate.
    destruct (H eq_refl) as [Heq ->]. rewrite Hb.
    split; [now apply String.eqb_eq | now exists []].
  - discriminate.
Qed.

(** X10.  Every run of [catchUp] keeps the store covered: if every
    confirmed transaction row and ownership row had a block row of its
    height before, the same holds after any number of passes. *)
Theorem catchUp_keeps_rows_covered :
  forall (L : Lib) (network : Network) (genesis : ChainTip) (node : Bitcoind)
         (passes : nat) (r : Run),
    covered (storage (self r)) ->
    covered (storage (self (snd (fst (catchUp_from network genesis node passes r))))).
Proof.
  intros L network genesis node passes.
  induction passes as [|n IH]; intros r C; [exact C|].
  cbn [catchUp_from].
  destruct (once network genesis node r) as [[o r1] ev1] eqn:E.
  assert (C1 := once_covered network genesis node _ _ _ _ E C).
  specialize (IH r1 C1).
  destruct (catchUp_from network genesis node n r1) as [[s r2] ev2].
  destruct o; assumption.
Qed.

(** X13.  A pass never removes a row of [blocks], [transactions] or
    [history] whose height is NULL or below the height of the remote tip
    it acted on. *)
Theorem pass_keeps_rows_below_remote_tip :
  forall (L : Lib) (network : Network) (genesis : ChainTip) (node : Bitcoind)
         (r r' : Run) (o : Outcome) (ev : list Event) (t : Table) (row : Row),
    once network genesis node r = (o, r', ev) ->
    confirmed_table t = true ->
    In row (rows (storage (self r)) t) ->
    keeps (height (bitcoindBestBlock (self r'))) row = true ->
    In row (rows (storage (self r')) t).
Proof.
  intros L network genesis node r r' o ev t row H Ht Hin Hk.
  apply once_shape in H. cbv zeta in H.
  destruct H as [[_ [-> _]] | [[_ [_ [_ [_ [-> _]]]]]
                              | [_ [_ [_ [block [qs [pre [_ [_ [-> _]]]]]]]]]]].
  - exact Hin.
  - destruct t; try discriminate; cbn [rows cut r_blocks r_transactions r_history];
      apply filter_In; auto.
  - destruct (import_rows network (height (bestBlock (self r)) + 1) block
                (mempoolTruncated r) (storage (self r))) as [R1 [R2 [R3 _]]].
    cbv zeta in R1, R2, R3.
    destruct t; try discriminate; rewrite ?R1, ?R2, ?R3; apply in_or_app; now left.
Qed.

(** X14.  No pass adds a row to a mempool table.  The first import of a
    run empties both of them; every other pass (a later import, a rollback,
    a pass that ends the run) leaves them as they are. *)
Theorem pass_mempool_tables :
  forall (L : Lib) (network : Network) (genesis : ChainTip) (node : Bitcoind)
         (r r' : Run) (o : Outcome) (ev : list Event) (t : Table),
    once network genesis node r = (o, r', ev) ->
    confirmed_table t = false ->
    rows (storage (self r')) t
    = match o with
      | Advanced => if mempoolTruncated r then rows (storage (self r)) t else []
      | _ => rows (storage (self r)) t
      end.
Proof.
  intros L network genesis node r r' o ev t H Ht.
  apply once_shape in H. cbv zeta in H.
  destruct H as [[Ho [-> _]] | [[-> [_ [_ [_ [-> _]]]]]
                               | [-> [_ [_ [block [qs [pre [_ [_ [-> _]]]]]]]]]]].
  - destruct Ho as [->|[e ->]]; reflexivity.
  - destruct t; try discriminate; reflexivity.
  - destruct (import_rows network (height (bestBlock (self r)) + 1) block
                (mempoolTruncated r) (storage (self r))) as [_ [_ [_ [R4 R5]]]].
    cbv zeta in R4, R5.
    destruct t; try discriminate; [exact R4 | exact R5].
Qed.

(* ================================================================== *)
(** * The main loop over many cycles *)

Section LoopMore.

Context {L : Lib}.
Variable network : Network.
Variable genesis : ChainTip.
Variable node : Bitcoind.

Lemma type_errors_app (ev1 ev2 : list Event) :
  type_errors (ev1 ++ ev2) = (type_errors ev1 + type_errors ev2)%nat.
Proof. unfold type_errors. now rewrite filter_app, length_app. Qed.

(** With the node forked at or below the local tip, a cycle of the main
    loop starts a run whose first pass takes the reorg branch and throws. *)
Lemma mainLoop_once_forked (passes : nat) (ix : Indexer) :
  forked_not_above node (bestBlock ix) ->
  exists ix' t,
    mainLoop_once network genesis node (S passes) ix
    = Some (ix',
            [EvBestBlockRequest; EvBestBlockRequest; EvReorgWarning (height t);
             EvTransaction (Rollback (height t)) (deleteQueries (height t)) false;
             EvSetTimeout; EvErrorLogged TypeError])
    /\ storage ix' = storage ix
    /\ bestBlock ix' = bestBlock ix.
Proof.
  intros F.
  destruct (F (served ix)) as [t0 [B0 [H0 E0]]].
  destruct (F (S (served ix))) as [t [B1 [H1 E1]]].
  unfold mainLoop_once, getBitcoindBestBlock. rewrite B0.
  unfold set_bitcoindBestBlock, tick.
  cbn [bestBlock bitcoindBestBlock storage served self mempoolTruncated].
  rewrite E0. cbn [negb].
  unfold catchUp. cbn [catchUp_from]. unfold once, checkSync.
  unfold set_bitcoindBestBlock, tick.
  cbn [bestBlock bitcoindBestBlock storage served self mempoolTruncated].
  replace (height (bestBlock ix) + 100 <? height t0) with false
    by (symmetry; apply Z.ltb_ge; lia).
  unfold getBitcoindBestBlock.
  unfold set_bitcoindBestBlock, tick.
  cbn [bestBlock bitcoindBestBlock storage served self mempoolTruncated].
  rewrite B1.
  unfold set_bitcoindBestBlock, tick.
  cbn [bestBlock bitcoindBestBlock storage served self mempoolTruncated].
  rewrite E1.
  unfold reorg. cbn [self mempoolTruncated bitcoindBestBlock storage].
  rewrite rollback_flag_clear. unfold set_storage.
  cbn [self storage bestBlock bitcoindBestBlock served].
  replace (height (bestBlock ix) >=? height t) with true
    by (symmetry; rewrite Z.geb_leb; apply Z.leb_le; exact H1).
  cbn [app self].
  do 2 eexists. split; [reflexivity|]. split; reflexivity.
Qed.

Lemma eventLoop_forked (ticks passes : nat) (p : Process) :
  forked_not_above node (bestBlock (indexer p)) ->
  timers p = 1%nat ->
  exists p',
    eventLoop network genesis node ticks (S passes) p = Some p'
    /\ storage (indexer p') = storage (indexer p)
    /\ bestBlock (indexer p') = bestBlock (indexer p)
    /\ type_errors (observed p') = (type_errors (observed p) + ticks)%nat.
Proof.
  revert p. induction ticks as [|n IH]; intros p F T; cbn [eventLoop].
  - exists p. repeat split; auto.
  - rewrite T. unfold run_once. cbn [indexer timers observed].
    destruct (mainLoop_once_forked passes (indexer p) F) as [ix' [t [E [Hs Hb]]]].
    rewrite E.
    set (p1 := mkProcess ix' _ _).
    assert (F1 : forked_not_above node (bestBlock (indexer p1)))
      by (cbn [p1 indexer]; now rewrite Hb).
    assert (T1 : timers p1 = 1%nat) by reflexivity.
    destruct (IH p1 F1 T1) as [p' [E' [Hs' [Hb' He']]]].
    exists p'. split; [exact E'|].
    cbn [p1 indexer observed] in Hs', Hb', He'.
    rewrite Hs', Hb', He', Hs, Hb.
    repeat split; auto.
    rewrite type_errors_app. cbn. lia.
Qed.

(** With the node in step with the local tip, a cycle only asks for the
    tip. *)
Lemma mainLoop_once_in_sync (passes : nat) (ix : Indexer) :
  in_sync node (bestBlock ix) ->
  exists ix',
    mainLoop_once network genesis node passes ix
    = Some (ix', [EvBestBlockRequest; EvSetTimeout])
    /\ storage ix' = storage ix
    /\ bestBlock ix' = bestBlock ix.
Proof.
  intros F. destruct (F (served ix)) as [t [B E]].
  unfold mainLoop_once, getBitcoindBestBlock. rewrite B.
  unfold set_bitcoindBestBlock, tick.
  cbn [bestBlock bitcoindBestBlock storage served self mempoolTruncated].
  rewrite E. cbn [negb]. eexists. split; [reflexivity|]. split; reflexivity.
Qed.

Lemma eventLoop_in_sync (ticks passes : nat) (p : Process) :
  in_sync node (bestBlock (indexer p)) ->
  timers p = 1%nat ->
  exists p',
    eventLoop network genesis node ticks passes p = Some p'
    /\ storage (indexer p') = storage (indexer p)
    /\ bestBlock (indexer p') = bestBlock (indexer p)
    /\ timers p' = 1%nat
    /\ observed p'
       = observed p ++ List.concat (repeat [EvBestBlockRequest; EvSetTimeout] ticks).
Proof.
  revert p. induction ticks as [|n IH]; intros p F T; cbn [eventLoop].
  - exists p. repeat split; auto. cbn. now rewrite app_nil_r.
  - rewrite T. unfold run_once. cbn [indexer timers observed].
    destruct (mainLoop_once_in_sync passes (indexer p) F) as [ix' [E [Hs Hb]]].
    rewrite E.
    set (p1 := mkProcess ix' _ _).
    assert (F1 : in_sync node (bestBlock (indexer p1)))
      by (cbn [p1 indexer]; now rewrite Hb).
    destruct (IH p1 F1 eq_refl) as [p' [E' [Hs' [Hb' [T' Ho']]]]].
    exists p'. split; [exact E'|].
    cbn [p1 indexer observed] in Hs', Hb', Ho'.
    rewrite Hs', Hb', Ho', Hs, Hb. repeat split; auto.
    cbn [repeat List.concat]. now rewrite <- !app_assoc.
Qed.

End LoopMore.

(** X9.  A fork at or below the local tip that is met at the start of
    every run is never repaired: as long as the node keeps reporting a tip
    that is not above the local one and has another block id, every cycle
    of the main loop ends in the [TypeError] of the rollback, and after any
    number of timers the store and the local tip are what they were. *)
Theorem fork_at_start_is_never_repaired :
  forall (L : Lib) (network : Network) (genesis : ChainTip) (node : Bitcoind)
         (ix : Indexer) (ticks passes : nat),
    forked_not_above node (bestBlock ix) ->
    exists p,
      mainLoop network genesis node ticks (S passes) ix = Some p
      /\ storage (indexer p) = storage ix
      /\ bestBlock (indexer p) = bestBlock ix
      /\ type_errors (observed p) = S ticks.
Proof.
  intros L network genesis node ix ticks passes F.
  unfold mainLoop, run_once. cbn [indexer timers observed].
  destruct (mainLoop_once_forked network genesis node passes ix F)
    as [ix' [t [E [Hs Hb]]]].
  rewrite E. set (p1 := mkProcess ix' _ _).
  assert (F1 : forked_not_above node (bestBlock (indexer p1)))
    by (cbn [p1 indexer]; now rewrite Hb).
  destruct (eventLoop_forked network genesis node ticks passes p1 F1 eq_refl)
    as [p [Ep [Hs' [Hb' He']]]].
  exists p. split; [exact Ep|].
  cbn [p1 indexer observed] in Hs', Hb', He'.
  rewrite Hs', Hb', He', Hs, Hb. repeat split; auto.
Qed.

(** X11.  While the node keeps reporting the block id the indexer
    already has, the main loop only polls: each cycle asks for the tip once
    and arms its timer, no run of [catchUp] is started, no transaction is
    opened, and the store and the local tip stay as they are. *)
Theorem main_loop_in_sync_only_polls :
  forall (L : Lib) (network : Network) (genesis : ChainTip) (node : Bitcoind)
         (ix : Indexer) (ticks passes : nat),
    in_sync node (bestBlock ix) ->
    exists p,
      mainLoop network genesis node ticks passes ix = Some p
      /\ storage (indexer p) = storage ix
      /\ bestBlock (indexer p) = bestBlock ix
      /\ observed p
         = List.concat (repeat [EvBestBlockRequest; EvSetTimeout] (S ticks)).
Proof.
  intros L network genesis node ix ticks passes F.
  unfold mainLoop, run_once. cbn [indexer timers observed].
  destruct (mainLoop_once_in_sync network genesis node passes ix F)
    as [ix' [E [Hs Hb]]].
  rewrite E. set (p1 := mkProcess ix' _ _).
  assert (F1 : in_sync node (bestBlock (indexer p1)))
    by (cbn [p1 indexer]; now rewrite Hb).
  destruct (eventLoop_in_sync network genesis node ticks passes p1 F1 eq_refl)
    as [p [Ep [Hs' [Hb' [_ Ho']]]]].
  exists p. split; [exact Ep|].
  cbn [p1 indexer observed] in Hs', Hb', Ho'.
  rewrite Hs', Hb', Ho', Hs, Hb. repeat split; auto.
Qed.

Section RunFacts.

Context {L : Lib}.
Variable network : Network.
Variable genesis : ChainTip.
Variable node : Bitcoind.

Lemma filter_none {A : Type} (f : A -> bool) (l : list A) :
  existsb f l = false -> filter f l = [].
Proof.
  induction l as [|x l IH]; [reflexivity|]. cbn [existsb filter].
  intros H. apply orb_false_iff in H. destruct H as [-> H]. now apply IH.
Qed.

Lemma imports_app (ev1 ev2 : list Event) :
  imports (ev1 ++ ev2) = (imports ev1 + imports ev2)%nat.
Proof. unfold imports. now rewrite filter_app, length_app. Qed.

Lemma catchUp_from_tip_height (passes : nat) (r : Run) :
  existsb committed_rollback
    (events (catchUp_from network genesis node passes r)) = false ->
  height (bestBlock (self (snd (fst (catchUp_from network genesis node passes r)))))
  = height (bestBlock (self r))
    + Z.of_nat (imports (events (catchUp_from network genesis node passes r))).
Proof.
  revert r. induction passes as [|n IH]; intros r; [cbn; lia|].
  cbn [catchUp_from].
  destruct (once network genesis node r) as [[o r1] ev1] eqn:E.
  apply once_shape in E. cbv zeta in E.
  destruct E as [[Ho [_ [Hb [Hi _]]]] | [[-> [_ [_ [_ [_ [_ [pre [_ ->]]]]]]]]
                                        | [-> [_ [_ [block [qs [pre H]]]]]]]].
  - apply filter_none in Hi.
    destruct Ho as [->|[e ->]]; unfold events, imports; cbn [fst snd];
      rewrite Hi, Hb; cbn; lia.
  - destruct (catchUp_from network genesis node n r1) as [[s r2] ev2].
    unfold events. cbn [snd]. rewrite !existsb_app. cbn.
    rewrite orb_true_r. discriminate.
  - destruct H as [_ [Hb [_ [Hpre ->]]]].
    specialize (IH r1).
    destruct (catchUp_from network genesis node n r1) as [[s r2] ev2].
    unfold events in *. cbn [fst snd] in *.
    rewrite !existsb_app. intros Hr.
    apply orb_false_iff in Hr. destruct Hr as [_ Hr].
    rewrite (IH Hr), Hb, !imports_app. cbn [height].
    replace (imports pre) with 0%nat by (destruct Hpre; subst; reflexivity).
    cbn. lia.
Qed.

End RunFacts.

(** X15.  In a run of [catchUp] without a committed rollback, the local
    tip has risen by exactly the number of imports that committed. *)
Theorem tip_height_counts_imports :
  forall (L : Lib) (network : Network) (genesis : ChainTip) (node : Bitcoind)
         (passes : nat) (r : Run),
    existsb committed_rollback
      (events (catchUp_from network genesis node passes r)) = false ->
    height (bestBlock (self (snd (fst (catchUp_from network genesis node passes r)))))
    = height (bestBlock (self r))
      + Z.of_nat (imports (events (catchUp_from network genesis node passes r))).
Proof. intros. now apply catchUp_from_tip_height. Qed.

(** X16.  A pass that rolls back belongs to a run that has already
    imported; it rolls back to the height of the remote tip, which is not
    above the local one, and afterwards no row of [blocks], [transactions]
    or [history] has that height or a higher one. *)
Theorem pass_that_rolls_back_clears_from_remote_height :
  forall (L : Lib) (network : Network) (genesis : ChainTip) (node : Bitcoind)
         (r r' : Run) (ev : list Event),
    once network genesis node r = (Reorged, r', ev) ->
    let h := height (bitcoindBestBlock (self r')) in
    mempoolTruncated r = true
    /\ h <= height (bestBlock (self r))
    /\ existsb committed_rollback ev = true
    /\ forall t row x,
         confirmed_table t = true ->
         In row (rows (storage (self r')) t) ->
         row_height row = Some x ->
         x < h.
Proof.
  intros L network genesis node r r' ev H h.
  apply once_shape in H. cbv zeta in H. fold h in H.
  destruct H as [[[Ho|[e Ho]] _] | [[_ [F [_ [Hle [Hs [_ [pre [Hpre ->]]]]]]]] | [Ho _]]];
    try discriminate.
  split; [exact F|]. split; [exact Hle|]. split.
  - rewrite existsb_app. cbn. now rewrite orb_true_r.
  - intros t row x Ht Hin Hx. rewrite Hs in Hin. apply cut_rows in Hin.
    destruct Hin as [_ Hk]. destruct t; try discriminate; now apply Hk.
Qed.

(* ================================================================== *)
(** * Rollbacks that follow one another *)

Section SuccessiveRollbacks.

Context {L : Lib}.
Variable network : Network.
Variable genesis : ChainTip.
Variable node : Bitcoind.

Lemma commits_after_abort_app (pending : bool) (ev1 ev2 : list Event) :
  commits_after_abort pending (ev1 ++ ev2)
  = commits_after_abort pending ev1
    || commits_after_abort (fold_left pending_step ev1 pending) ev2.
Proof.
  revert pending. induction ev1 as [|e ev1 IH]; intros pending; [reflexivity|].
  cbn [app commits_after_abort fold_left]. rewrite IH. now rewrite orb_assoc.
Qed.

Lemma no_commit_no_scan (pending : bool) (ev : list Event) :
  existsb committed_rollback ev = false ->
  commits_after_abort pending ev = false.
Proof.
  revert pending. induction ev as [|e ev IH]; intros pending; [reflexivity|].
  cbn [existsb commits_after_abort]. intros H.
  apply orb_false_iff in H. destruct H as [-> H].
  rewrite andb_false_r. now apply IH.
Qed.

Lemma no_abort_no_scan (ev : list Event) :
  existsb aborted_rollback ev = false ->
  commits_after_abort false ev = false.
Proof.
  induction ev as [|e ev IH]; [reflexivity|].
  cbn [existsb commits_after_abort]. intros H.
  apply orb_false_iff in H. destruct H as [He H].
  unfold pending_step. rewrite He.
  destruct (committed_import e); now apply IH.
Qed.

(** With the flag set no rollback of a pass aborts, and the flag stays
    set. *)
Lemma once_flag_set_no_abort (r r' : Run) (o : Outcome) (ev : list Event) :
  mempoolTruncated r = true ->
  once network genesis node r = (o, r', ev) ->
  mempoolTruncated r' = true /\ existsb aborted_rollback ev = false.
Proof.
  intros Hf. unfold once.
  destruct (checkSync node (self r)) as [[o1 ix1] ev1] eqn:E.
  apply checkSync_shape in E. destruct E as [_ [_ [Hev _]]].
  assert (A1 : existsb aborted_rollback ev1 = false)
    by (destruct Hev; subst; reflexivity).
  destruct o1 as [o1|].
  - intros [= <- <- <-]. auto.
  - rewrite Hf.
    destruct (height (bestBlock ix1) >=? height (bitcoindBestBlock ix1)).
    + unfold reorg. cbn [mempoolTruncated self]. rewrite rollback_flag_set.
      intros [= <- <- <-]. rewrite existsb_app, A1. auto.
    + unfold forward. cbn [mempoolTruncated self].
      destruct (getBlock node ix1 _) as [[e|block] ix2].
      * intros [= <- <- <-]. rewrite existsb_app, A1. auto.
      * destruct (executeTransaction _ true (storage ix2))
          as [[[res flag'] db'] qs] eqn:X.
        apply import_truncations in X. destruct X as [-> _].
        destruct res; intros [= <- <- <-]; rewrite existsb_app, A1; auto.
Qed.

Lemma catchUp_from_no_abort (passes : nat) (r : Run) :
  mempoolTruncated r = true ->
  existsb aborted_rollback
    (events (catchUp_from network genesis node passes r)) = false.
Proof.
  revert r. induction passes as [|n IH]; intros r Hf; [reflexivity|].
  cbn [catchUp_from].
  destruct (once network genesis node r) as [[o r1] ev] eqn:E.
  destruct (once_flag_set_no_abort _ _ _ _ Hf E) as [Hf1 A].
  specialize (IH r1 Hf1).
  destruct (catchUp_from network genesis node n r1) as [[s r2] ev'].
  unfold events in *. cbn [snd] in *.
  destruct o; cbn [snd]; rewrite ?existsb_app, ?A, ?IH; reflexivity.
Qed.

(** In the trace of one run of [catchUp], whatever went before, no
    rollback commits while an aborted one is pending. *)
Lemma catchUp_scan (pending : bool) (passes : nat) (ix : Indexer) :
  commits_after_abort pending
    (events (catchUp network genesis node passes ix)) = false.
Proof.
  unfold catchUp. destruct passes as [|n]; [reflexivity|]. cbn [catchUp_from].
  destruct (once network genesis node (mkRun ix false)) as [[o r1] ev1] eqn:E.
  apply once_shape in E. cbv zeta in E.
  destruct E as [[Ho [_ [_ [_ [Hc _]]]]] | [[_ [F _]] | [-> [Hf [_ H]]]]].
  - apply (no_commit_no_scan pending) in Hc.
    destruct Ho as [->|[e ->]]; exact Hc.
  - discriminate F.
  - destruct H as [block [qs [pre [_ [_ [_ [Hpre ->]]]]]]].
    assert (A := catchUp_from_no_abort n r1 Hf).
    apply no_abort_no_scan in A.
    destruct (catchUp_from network genesis node n r1) as [[s r2] ev'].
    unfold events in *. cbn [snd] in *.
    destruct Hpre as [->| ->]; destruct pending; cbn; exact A.
Qed.

Lemma commits_after_abort_request (pending : bool) (ev : list Event) :
  commits_after_abort pending (EvBestBlockRequest :: ev)
  = commits_after_abort pending ev.
Proof. now destruct pending. Qed.

Lemma mainLoop_once_scan (pending : bool) (passes : nat) (ix ix' : Indexer)
    (ev : list Event) :
  mainLoop_once network genesis node passes ix = Some (ix', ev) ->
  commits_after_abort pending ev = false.
Proof.
  unfold mainLoop_once.
  destruct (getBitcoindBestBlock node ix) as [[e|b] ix1].
  - intros [= <- <-]. now destruct pending.
  - destruct (negb _).
    + assert (S := fun q => catchUp_scan q passes (set_bitcoindBestBlock ix1 b)).
      destruct (catchUp network genesis node passes (set_bitcoindBestBlock ix1 b))
        as [[[|e|] r] ev0]; unfold events in S; cbn [snd] in S;
        intros [= <- <-];
        rewrite commits_after_abort_request, commits_after_abort_app, S;
        cbn; now rewrite ?andb_false_r.
    + intros [= <- <-]. now destruct pending.
Qed.

Lemma eventLoop_scan (ticks passes : nat) (p p' : Process) :
  eventLoop network genesis node ticks passes p = Some p' ->
  commits_after_abort false (observed p) = false ->
  commits_after_abort false (observed p') = false.
Proof.
  revert p. induction ticks as [|n IH]; intros p; cbn [eventLoop].
  - now intros [= <-].
  - destruct (timers p); [now intros [= <-]|].
    unfold run_once. cbn [indexer timers observed].
    destruct (mainLoop_once _ _ _ _ _) as [[ix' ev]|] eqn:E; [|discriminate].
    intros H Hp. apply (IH _ H). cbn [observed].
    rewrite commits_after_abort_app, Hp.
    exact (mainLoop_once_scan _ _ _ _ _ E).
Qed.

Lemma mainLoop_scan (ticks passes : nat) (ix : Indexer) (p : Process) :
  mainLoop network genesis node ticks passes ix = Some p ->
  commits_after_abort false (observed p) = false.
Proof.
  unfold mainLoop, run_once. cbn [indexer timers observed].
  destruct (mainLoop_once _ _ _ _ _) as [[ix' ev]|] eqn:E; [|discriminate].
  intros H. apply (eventLoop_scan _ _ _ _ H). cbn [observed app].
  exact (mainLoop_once_scan _ _ _ _ _ E).
Qed.

End SuccessiveRollbacks.

(** C9.  Two rollbacks to the same height that follow one another leave
    the store, confirmed and mempool tables alike, as the first one left
    it.  A rollback commits exactly when [mempoolTruncated] is set at its
    call and aborts without changing the store when it is clear.  With
    [f1] and [f2] the values of the flag at the two calls, the store after
    both is the store after the first unless the first aborts and the
    second commits; and that order does not occur: in every trace of the
    main loop, and in every trace of a run of [catchUp] whatever went
    before it, no rollback commits after one that aborted unless an import
    has committed in between, in which case the two do not follow one
    another. *)
Theorem C9_rollback_idempotent :
  forall (L : Lib) (network : Network) (genesis : ChainTip) (node : Bitcoind),
    (forall h db flag,
        committed (executeTransaction (rollbackTo h) flag db) = flag
        /\ (flag = false ->
            store_after (executeTransaction (rollbackTo h) flag db) = db))
    /\ (forall h db f1 f2,
           f1 = true \/ f2 = false ->
           store_after
             (executeTransaction (rollbackTo h) f2
                (store_after (executeTransaction (rollbackTo h) f1 db)))
           = store_after (executeTransaction (rollbackTo h) f1 db))
    /\ (forall ticks passes ix p,
           mainLoop network genesis node ticks passes ix = Some p ->
           commits_after_abort false (observed p) = false)
    /\ (forall pending passes ix,
           commits_after_abort pending
             (events (catchUp network genesis node passes ix)) = false).
Proof.
  intros L network genesis node. split; [|split; [|split]].
  - intros h db flag. destruct flag;
      rewrite ?rollback_flag_set, ?rollback_flag_clear; split;
      first [reflexivity | discriminate].
  - intros h db f1 f2. apply rollback_twice.
  - intros ticks passes ix p. apply mainLoop_scan.
  - intros pending passes ix. apply catchUp_scan.
Qed.

(* ================================================================== *)
(** * The further theorems at concrete inputs *)

(** X4 on a block with a 1-of-2 multisig output. *)
Lemma import_with_multisig_output_witness :
  (In (mkTransaction "txbb" "rawbb" [mkOutput multisig_1_of_2 7])
      (block_transactions multisig_block)
   /\ isMultisigOut multisig_1_of_2 = true
   /\ buf (op OP_1) = None)
  /\ thrown (storeTransactions livenet (Some PgClient) (Some 2)
                               (block_transactions multisig_block)) <> None
  /\ exists e qs,
       executeTransaction (importBlock livenet 2 multisig_block) true (store_at 1 "aa")
       = (inl e, true, store_at 1 "aa", qs).
Proof.
  split; [split; [left; reflexivity | split; reflexivity]|].
  exact (import_with_multisig_output_aborts
           lib livenet 2 multisig_block true (store_at 1 "aa")
           (mkTransaction "txbb" "rawbb" [mkOutput multisig_1_of_2 7]) 0%nat
           (mkOutput multisig_1_of_2 7)
           (op OP_1) (push key1) (op OP_2) (op OP_CHECKMULTISIG) [push key2]
           (or_introl eq_refl) eq_refl eq_refl eq_refl eq_refl eq_refl eq_refl).
Defined.

(** X5 on the pass that fails with [failing_node]. *)
Lemma pass_that_ends_run_witness :
  failing_pass
  = (Failed BitcoindError, snd (fst failing_pass), snd failing_pass)
  /\ storage (self (snd (fst failing_pass))) = storage (self after_first_answer)
  /\ bestBlock (self (snd (fst failing_pass))) = bestBlock (self after_first_answer).
Proof.
  assert (H : failing_pass
              = (Failed BitcoindError, snd (fst failing_pass), snd failing_pass))
    by reflexivity.
  split; [exact H|].
  assert (A : Failed BitcoindError <> Advanced) by discriminate.
  assert (R : Failed BitcoindError <> Reorged) by discriminate.
  destruct (pass_that_ends_run_changes_nothing
              lib livenet genesis failing_node _ _ _ _ H A R) as [Hs [Hb _]].
  split; [exact Hs | exact Hb].
Defined.

(** X6 on the first pass of the run of [fork_node]. *)
Lemma pass_that_imports_witness :
  first_pass = (Advanced, snd (fst first_pass), snd first_pass)
  /\ exists block,
       blockAt fork_node (served (self (snd (fst first_pass))) - 1) 2 = Some block
       /\ bestBlock (self (snd (fst first_pass))) = mkTip 2 (block_id block).
Proof.
  assert (H : first_pass = (Advanced, snd (fst first_pass), snd first_pass))
    by (vm_compute; reflexivity).
  split; [exact H|].
  destruct (pass_that_imports_advances_by_one
              lib livenet genesis fork_node _ _ _ H) as [block [B [T _]]].
  exists block. split; [exact B | exact T].
Defined.

(** X8 on the run of [fork_node], which resolves in four passes. *)
Lemma resolved_run_witness :
  fork_run = (Resolved, snd (fst fork_run), snd fork_run)
  /\ blockid (bestBlock (self (snd (fst fork_run))))
     = blockid (bitcoindBestBlock (self (snd (fst fork_run)))).
Proof.
  assert (H : fork_run = (Resolved, snd (fst fork_run), snd fork_run))
    by (vm_compute; reflexivity).
  split; [exact H|].
  exact (proj1 (resolved_run_has_the_remote_block_id
                  lib livenet genesis fork_node 4%nat _ _ _ H)).
Defined.

(** X9 on the fork at equal height, local (100, a) and remote (100, b). *)
Lemma fork_at_start_witness :
  forked_not_above equal_height_node (bestBlock forked_at_100)
  /\ exists p,
       mainLoop livenet genesis equal_height_node 7 1 forked_at_100 = Some p
       /\ storage (indexer p) = storage forked_at_100
       /\ bestBlock (indexer p) = bestBlock forked_at_100
       /\ type_errors (observed p) = 8%nat.
Proof.
  assert (H : forked_not_above equal_height_node (bestBlock forked_at_100)).
  { intros n. exists (mkTip 100 "b"). split; [reflexivity|].
    split; [apply Z.le_refl | reflexivity]. }
  split; [exact H|].
  exact (fork_at_start_is_never_repaired
           lib livenet genesis equal_height_node forked_at_100 7%nat 0%nat H).
Defined.

(** X10 on the run of [fork_node] from a store that holds block 1 and
    its transaction. *)
Lemma catchUp_keeps_rows_covered_witness :
  covered (storage (self (mkRun behind_by_one false)))
  /\ covered (storage (self (snd (fst fork_run)))).
Proof.
  assert (H : covered (storage (self (mkRun behind_by_one false)))).
  { intros r x [[<-|[]]|[]] Hx. exists (block_row 1 (block_of "aa")).
    split; [left; reflexivity | exact Hx]. }
  split; [exact H|].
  exact (catchUp_keeps_rows_covered lib livenet genesis fork_node 4%nat _ H).
Defined.

(** X11 with a node that reports the tip the indexer has. *)
Lemma main_loop_in_sync_witness :
  in_sync quiet_node (bestBlock behind_by_one)
  /\ exists p,
       mainLoop livenet genesis quiet_node 3 5 behind_by_one = Some p
       /\ storage (indexer p) = storage behind_by_one
       /\ bestBlock (indexer p) = bestBlock behind_by_one
       /\ observed p
          = List.concat (repeat [EvBestBlockRequest; EvSetTimeout] 4).
Proof.
  assert (H : in_sync quiet_node (bestBlock behind_by_one)).
  { intros n. exists (mkTip 1 "aa"). split; reflexivity. }
  split; [exact H|].
  exact (main_loop_in_sync_only_polls
           lib livenet genesis quiet_node behind_by_one 3%nat 5%nat H).
Defined.

(** X12 on a block of two transactions. *)
Lemma storeTransactions_statement_count_witness :
  thrown (storeTransactions livenet (Some PgClient) (Some 2)
                            [tx_of "bb"; data_only_tx]) = None
  /\ List.length (sent (storeTransactions livenet (Some PgClient) (Some 2)
                                          [tx_of "bb"; data_only_tx]))
     = (2 + List.length (flat_map (extracted livenet) [tx_of "bb"; data_only_tx]))%nat.
Proof.
  assert (H : thrown (storeTransactions livenet (Some PgClient) (Some 2)
                                        [tx_of "bb"; data_only_tx]) = None)
    by reflexivity.
  split; [exact H|].
  exact (proj2 (storeTransactions_statement_count
                  lib livenet PgClient (Some 2) [tx_of "bb"; data_only_tx] H)).
Defined.

(** X13 on the pass that rolls back to 2: the block row of height 1
    stays. *)
Lemma pass_keeps_rows_witness :
  rollback_pass = (Reorged, snd (fst rollback_pass), snd rollback_pass)
  /\ In (block_row 1 (block_of "aa")) (rows (storage (self at_fork)) blocks)
  /\ keeps (height (bitcoindBestBlock (self (snd (fst rollback_pass)))))
           (block_row 1 (block_of "aa")) = true
  /\ In (block_row 1 (block_of "aa"))
        (rows (storage (self (snd (fst rollback_pass)))) blocks).
Proof.
  assert (H : rollback_pass = (Reorged, snd (fst rollback_pass), snd rollback_pass))
    by (vm_compute; reflexivity).
  assert (I : In (block_row 1 (block_of "aa")) (rows (storage (self at_fork)) blocks))
    by (left; reflexivity).
  assert (K : keeps (height (bitcoindBestBlock (self (snd (fst rollback_pass)))))
                    (block_row 1 (block_of "aa")) = true)
    by (vm_compute; reflexivity).
  split; [exact H|]. split; [exact I|]. split; [exact K|].
  exact (pass_keeps_rows_below_remote_tip
           lib livenet genesis fork_node _ _ _ _ blocks _ H eq_refl I K).
Defined.

(** X14 on the first pass of the run of [fork_node], which empties
    [transactions_mempool]. *)
Lemma pass_mempool_tables_witness :
  first_pass = (Advanced, snd (fst first_pass), snd first_pass)
  /\ rows (storage (self (snd (fst first_pass)))) transactions_mempool = [].
Proof.
  assert (H : first_pass = (Advanced, snd (fst first_pass), snd first_pass))
    by (vm_compute; reflexivity).
  split; [exact H|].
  exact (pass_mempool_tables lib livenet genesis fork_node _ _ _ _
                             transactions_mempool H eq_refl).
Defined.

(** X15 on fifty passes from the local tip 100: the tip is 100 plus the
    number of imports. *)
Lemma tip_height_counts_imports_witness :
  existsb committed_rollback
    (events (catchUp_from livenet genesis steady_node 50 (mkRun far_behind false)))
  = false
  /\ height (bestBlock (self (snd (fst (catchUp_from livenet genesis steady_node 50
                                           (mkRun far_behind false))))))
     = 100 + Z.of_nat (imports (events (catchUp_from livenet genesis steady_node 50
                                           (mkRun far_behind false)))).
Proof.
  assert (H : existsb committed_rollback
                (events (catchUp_from livenet genesis steady_node 50
                                      (mkRun far_behind false))) = false)
    by (vm_compute; reflexivity).
  split; [exact H|].
  exact (tip_height_counts_imports lib livenet genesis steady_node 50%nat
                                   (mkRun far_behind false) H).
Defined.

(** X16 on the pass that rolls back to 2. *)
Lemma pass_that_rolls_back_witness :
  rollback_pass = (Reorged, snd (fst rollback_pass), snd rollback_pass)
  /\ mempoolTruncated at_fork = true
  /\ forall t row x,
       confirmed_table t = true ->
       In row (rows (storage (self (snd (fst rollback_pass)))) t) ->
       row_height row = Some x ->
       x < height (bitcoindBestBlock (self (snd (fst rollback_pass)))).
Proof.
  assert (H : rollback_pass = (Reorged, snd (fst rollback_pass), snd rollback_pass))
    by (vm_compute; reflexivity).
  split; [exact H|].
  destruct (pass_that_rolls_back_clears_from_remote_height
              lib livenet genesis fork_node _ _ _ H) as [F [_ [_ K]]].
  split; [exact F | exact K].
Defined.

(** C9 on the store of the run of [fork_node], on the trace of the main
    loop with the fork at equal height (three rollbacks that abort), and
    on the trace of the run of [fork_node] (a rollback that commits after
    an import). *)
Lemma C9_witness :
  (true = true \/ true = false)
  /\ store_after
       (executeTransaction (rollbackTo 2) true
          (store_after (executeTransaction (rollbackTo 2) true
                                           (storage (self at_fork)))))
     = store_after (executeTransaction (rollbackTo 2) true (storage (self at_fork)))
  /\ mainLoop livenet genesis equal_height_node 2 1 forked_at_100 = Some fork_loop
  /\ List.length (filter aborted_rollback (observed fork_loop)) = 3%nat
  /\ commits_after_abort false (observed fork_loop) = false
  /\ existsb committed_rollback
       (events (catchUp livenet genesis fork_node 4 behind_by_one)) = true
  /\ commits_after_abort true
       (events (catchUp livenet genesis fork_node 4 behind_by_one)) = false.
Proof.
  assert (H : mainLoop livenet genesis equal_height_node 2 1 forked_at_100
              = Some fork_loop) by (vm_compute; reflexivity).
  split; [left; reflexivity|]. split; [|split; [exact H|]].
  - exact (proj1 (proj2 (C9_rollback_idempotent lib livenet genesis fork_node))
                 2 (storage (self at_fork)) true true (or_introl eq_refl)).
  - split; [vm_compute; reflexivity|]. split; [|split; [vm_compute; reflexivity|]].
    + exact (proj1 (proj2 (proj2 (C9_rollback_idempotent
                                    lib livenet genesis equal_height_node)))
                   2%nat 1%nat forked_at_100 fork_loop H).
    + exact (proj2 (proj2 (proj2 (C9_rollback_idempotent
                                    lib livenet genesis fork_node)))
                   true 4%nat behind_by_one).
Defined.
